(** * es-viewer: the Elasticsearch document client and the JSON tree normalizer

    A shallow embedding of [src/es_gui.py]: the class [SimpleEsClient]
    (lines 35-82) and the method [ElasticsearchViewer._populate_tree_model]
    (lines 342-360), followed by the properties the specification states
    about them. *)

From Stdlib Require Import String Ascii List ZArith Lia Bool.
From Stdlib Require Import Decimal DecimalString DecimalNat FinFun.
Import ListNotations.
Open Scope string_scope.

(* ================================================================== *)
(** * Python primitives the program relies on *)
(* ================================================================== *)

Module Py.

(** [str(n)] and the f-string conversion [{n}] of a Python [int]: decimal
    digits, a leading minus sign for negative numbers. *)
Definition str_nat (n : nat) : string :=
  NilEmpty.string_of_uint (Nat.to_uint n).

Definition str_int (z : Z) : string :=
  NilEmpty.string_of_int (Z.to_int z).

(** [str(True)] and [str(False)]. *)
Definition str_bool (b : bool) : string :=
  if b then "True" else "False".

(** Truth value of a [str]: only the empty string is falsy. *)
Definition truthy (s : string) : bool :=
  match s with
  | EmptyString => false
  | String _ _ => true
  end.

(** Truth value of an optional [str] argument ([None] is falsy). *)
Definition truthy_opt (o : option string) : bool :=
  match o with
  | None => false
  | Some s => truthy s
  end.

(** The f-string conversion [{x}] of an optional [str]. *)
Definition format_opt (o : option string) : string :=
  match o with
  | None => "None"
  | Some s => s
  end.

(** [s.endswith('/')]. *)
Fixpoint endswith_slash (s : string) : bool :=
  match s with
  | EmptyString => false
  | String c EmptyString => Ascii.eqb c "/"%char
  | String _ rest => endswith_slash rest
  end.

(** [s[:-1]]: the string without its last character (the empty string
    stays empty). *)
Fixpoint drop_last (s : string) : string :=
  match s with
  | EmptyString => EmptyString
  | String _ EmptyString => EmptyString
  | String c rest => String c (drop_last rest)
  end.

(** [s.startswith(p)]. *)
Fixpoint startswith (p s : string) : bool :=
  match p, s with
  | EmptyString, _ => true
  | String a p', String b s' => Ascii.eqb a b && startswith p' s'
  | String _ _, EmptyString => false
  end.

(** The line feed of ["\n"]. *)
Definition nl : string := String (ascii_of_nat 10) EmptyString.

(** [c.isspace()] for a code point below 256: the characters
    [str.strip()] removes. *)
Definition isspace (c : ascii) : bool :=
  let n := nat_of_ascii c in
  ((9 <=? n)%nat && (n <=? 13)%nat)
  || ((28 <=? n)%nat && (n <=? 32)%nat)
  || (n =? 133)%nat
  || (n =? 160)%nat.

(** [s.lstrip()], [s.rstrip()] and [s.strip()]. *)
Fixpoint lstrip (s : string) : string :=
  match s with
  | EmptyString => EmptyString
  | String c rest => if isspace c then lstrip rest else s
  end.

Fixpoint rstrip (s : string) : string :=
  match s with
  | EmptyString => EmptyString
  | String c rest =>
      match rstrip rest with
      | EmptyString => if isspace c then EmptyString else String c EmptyString
      | kept => String c kept
      end
  end.

Definition strip (s : string) : string := rstrip (lstrip s).

(** An exception of a class that [requests.exceptions] does not define
    (a [ValueError], a [RecursionError], an exception of [urllib3]):
    the name of its class, the text [str(e)] gives, and whether the
    class is [json.JSONDecodeError] or below it, which three handlers of
    the window catch. *)
Record PyException : Type := mkPyException {
  exc_name : string;
  exc_text : string;
  is_json_decode_error : bool
}.

(** [' ' * n]. *)
Fixpoint spaces (n : nat) : string :=
  match n with
  | O => EmptyString
  | S n' => String " "%char (spaces n')
  end.

End Py.

(* ================================================================== *)
(** * JSON values as Python holds them after [json.loads] *)
(* ================================================================== *)

Module Json.

(** [None], [bool], [int], [float], [str], [dict] and [list].  A [dict]
    keeps its items in insertion order, so it is an association list.  A
    [float] is carried by its [repr], the decimal string Python prints for
    it (["1.5"], ["1e+22"], ["nan"]); [str] of a float returns that string. *)
#[local] Unset Elimination Schemes.

Inductive value : Type :=
| JNull
| JBool (b : bool)
| JInt (n : Z)
| JFloat (repr : string)
| JString (s : string)
| JObject (items : list (string * value))
| JArray (elems : list value).

#[local] Set Elimination Schemes.

(** [isinstance(v, (dict, list))]. *)
Definition is_container (v : value) : bool :=
  match v with
  | JObject _ | JArray _ => true
  | _ => false
  end.

(** [str(v)] for the values that are neither [dict] nor [list].  (The
    program never calls [str] on a container; the last case is there to
    make the function total.) *)
Definition str (v : value) : string :=
  match v with
  | JNull => "None"
  | JBool b => Py.str_bool b
  | JInt n => Py.str_int n
  | JFloat repr => repr
  | JString s => s
  | JObject _ | JArray _ => ""
  end.

(** ** [json.dumps]

    [json.dumps(obj)] with its defaults: [ensure_ascii=True], separators
    [", "] and [": "], no indentation.  A character of a string stands for
    one code point below 256. *)

Definition dquote : string := String (ascii_of_nat 34) EmptyString.
Definition backslash : string := String (ascii_of_nat 92) EmptyString.

Definition hex_digit (n : nat) : string :=
  match n with
  | 0 => "0" | 1 => "1" | 2 => "2" | 3 => "3" | 4 => "4" | 5 => "5"
  | 6 => "6" | 7 => "7" | 8 => "8" | 9 => "9" | 10 => "a" | 11 => "b"
  | 12 => "c" | 13 => "d" | 14 => "e" | _ => "f"
  end.

(** The replacement [py_encode_basestring_ascii] makes for one character:
    the short escapes of [ESCAPE_DCT], [\u00xx] for every other character
    outside the range from the space to the tilde. *)
Definition escape_char (c : ascii) : string :=
  let n := nat_of_ascii c in
  match n with
  | 92 => backslash ++ backslash
  | 34 => backslash ++ dquote
  | 8 => backslash ++ "b"
  | 12 => backslash ++ "f"
  | 10 => backslash ++ "n"
  | 13 => backslash ++ "r"
  | 9 => backslash ++ "t"
  | _ =>
      if (32 <=? n)%nat && (n <=? 126)%nat
      then String c EmptyString
      else backslash ++ "u00" ++ hex_digit (n / 16) ++ hex_digit (n mod 16)
  end.

Fixpoint escape (s : string) : string :=
  match s with
  | EmptyString => EmptyString
  | String c rest => escape_char c ++ escape rest
  end.

Definition encode_str (s : string) : string :=
  dquote ++ escape s ++ dquote.

(** [float.__repr__] except for the three values JSON has no literal for. *)
Definition encode_float (repr : string) : string :=
  if String.eqb repr "nan" then "NaN"
  else if String.eqb repr "inf" then "Infinity"
  else if String.eqb repr "-inf" then "-Infinity"
  else repr.

Fixpoint dumps (v : value) : string :=
  match v with
  | JNull => "null"
  | JBool b => if b then "true" else "false"
  | JInt n => Py.str_int n
  | JFloat repr => encode_float repr
  | JString s => encode_str s
  | JObject items =>
      "{" ++ String.concat ", "
               (map (fun kv => encode_str (fst kv) ++ ": " ++ dumps (snd kv)) items)
          ++ "}"
  | JArray elems =>
      "[" ++ String.concat ", " (map dumps elems) ++ "]"
  end.

(** [json.dumps(obj, indent=n)]: one item per line, nested items indented
    by [n] more spaces, the item separator [","] and the key separator
    [": "]; an empty container stays on one line. *)
Fixpoint dumps_indent (indent level : nat) (v : value) : string :=
  match v with
  | JObject [] => "{}"
  | JObject items =>
      let newline_indent := Py.nl ++ Py.spaces (indent * S level) in
      "{" ++ newline_indent
          ++ String.concat ("," ++ newline_indent)
               (map (fun kv => encode_str (fst kv) ++ ": "
                               ++ dumps_indent indent (S level) (snd kv)) items)
          ++ Py.nl ++ Py.spaces (indent * level) ++ "}"
  | JArray [] => "[]"
  | JArray elems =>
      let newline_indent := Py.nl ++ Py.spaces (indent * S level) in
      "[" ++ newline_indent
          ++ String.concat ("," ++ newline_indent)
               (map (dumps_indent indent (S level)) elems)
          ++ Py.nl ++ Py.spaces (indent * level) ++ "]"
  | _ => dumps v
  end.

(** Truth value of a decoded JSON value: [None], [False], zero, the empty
    string and the empty containers are falsy. *)
Definition truthy (v : value) : bool :=
  match v with
  | JNull => false
  | JBool b => b
  | JInt n => negb (n =? 0)%Z
  | JFloat repr => negb (String.eqb repr "0.0" || String.eqb repr "-0.0")
  | JString s => Py.truthy s
  | JObject items => match items with [] => false | _ :: _ => true end
  | JArray elems => match elems with [] => false | _ :: _ => true end
  end.

(** [d.get(key, default)] on the items of a [dict] (whose keys are
    pairwise different). *)
Fixpoint dict_get (items : list (string * value)) (key : string) (default : value) : value :=
  match items with
  | [] => default
  | (k, v) :: rest => if String.eqb k key then v else dict_get rest key default
  end.

End Json.

Import Json.

(* ================================================================== *)
(** * The document client: [SimpleEsClient] *)
(* ================================================================== *)

Module Client.

(** ** The [requests] library as the client sees it *)

(** What [response.json()] does: it returns the decoded value, or raises
    the [JSONDecodeError] of [requests.exceptions] with a message, or
    raises an exception of another class (a [ValueError] for an integer
    of too many digits, a [RecursionError] for a body nested too deep). *)
Inductive decoding : Type :=
| Decoded (v : Json.value)
| NotJson (msg : string)
| DecodeFails (e : Py.PyException).

(** What the client reads of a [requests.Response].  [content] is the body
    ([text] is its decoding, taken to be the same string) and [json] is
    what [response.json()] does. *)
Record Response : Type := mkResponse {
  status_code : Z;
  reason : string;
  content : string;
  json : decoding
}.

Definition text (r : Response) : string := content r.

(** The call [requests.request(method=..., url=..., auth=..., headers=...,
    timeout=..., verify=..., json=...)]. *)
Record Request : Type := mkRequest {
  req_method : string;
  req_url : string;
  req_auth : option (string * string);
  req_headers : list (string * string);
  req_timeout : Z;
  req_verify : bool;
  req_json : option Json.value
}.

(** The classes of [requests.exceptions] other than [HTTPError], which
    only [raise_for_status] raises. *)
Inductive exc_class : Type :=
| RequestException
| InvalidJSONError
| JSONDecodeError
| ConnectionError
| ProxyError
| SSLError
| Timeout
| ConnectTimeout
| ReadTimeout
| TooManyRedirects
| MissingSchema
| InvalidSchema
| InvalidURL
| InvalidHeader
| ChunkedEncodingError
| ContentDecodingError
| RetryError.

Definition exc_class_eq_dec (a b : exc_class) : {a = b} + {a <> b}.
Proof. decide equality. Defined.

(** The base classes each class is declared with, inside the library. *)
Definition bases (c : exc_class) : list exc_class :=
  match c with
  | RequestException => []
  | InvalidJSONError => [RequestException]
  | JSONDecodeError => [InvalidJSONError]
  | ConnectionError => [RequestException]
  | ProxyError => [ConnectionError]
  | SSLError => [ConnectionError]
  | Timeout => [RequestException]
  | ConnectTimeout => [ConnectionError; Timeout]
  | ReadTimeout => [Timeout]
  | TooManyRedirects => [RequestException]
  | MissingSchema => [RequestException]
  | InvalidSchema => [RequestException]
  | InvalidURL => [RequestException]
  | InvalidHeader => [RequestException]
  | ChunkedEncodingError => [RequestException]
  | ContentDecodingError => [RequestException]
  | RetryError => [RequestException]
  end.

Fixpoint issubclass_upto (depth : nat) (c d : exc_class) : bool :=
  if exc_class_eq_dec c d then true
  else match depth with
       | O => false
       | S depth' => existsb (fun b => issubclass_upto depth' b d) (bases c)
       end.

(** [issubclass(c, d)]; no class is more than two steps below the root. *)
Definition issubclass (c d : exc_class) : bool := issubclass_upto 2 c d.

(** An exception raised inside the [try] block: the [HTTPError] of
    [raise_for_status], which holds the response; an exception of another
    class of [requests.exceptions] with the text [str(e)] gives; or an
    exception of a class from elsewhere, which [requests.request] and
    [response.json()] also let through. *)
Inductive exn : Type :=
| HTTPError (response : Response)
| RequestsError (cls : exc_class) (detail : string)
| Foreign (e : Py.PyException).

(** A computation that returns or raises. *)
Inductive attempt (A : Type) : Type :=
| Done (a : A)
| Raised (e : exn).

Arguments Done {A} a.
Arguments Raised {A} e.

Definition bind {A B : Type} (m : attempt A) (k : A -> attempt B) : attempt B :=
  match m with
  | Done a => k a
  | Raised e => Raised e
  end.

Notation "x <- m ;; k" := (bind m (fun x => k))
  (at level 61, m at next level, right associativity).

(** [response.raise_for_status()]: an [HTTPError] for a status from 400 to
    599, nothing for any other. *)
Definition raise_for_status (response : Response) : attempt unit :=
  if (400 <=? status_code response)%Z && (status_code response <? 500)%Z
  then Raised (HTTPError response)
  else if (500 <=? status_code response)%Z && (status_code response <? 600)%Z
  then Raised (HTTPError response)
  else Done tt.

(** [response.json()].  The [JSONDecodeError] it raises is the one of
    [requests.exceptions], declared with the bases [InvalidJSONError]
    (hence a [RequestException]) and [json.JSONDecodeError]. *)
Definition response_json (response : Response) : attempt Json.value :=
  match json response with
  | Decoded v => Done v
  | NotJson msg => Raised (RequestsError JSONDecodeError msg)
  | DecodeFails e => Raised (Foreign e)
  end.

(** The network and the servers behind it: what [requests.request]
    returns or raises for a request, given the requests sent before, and
    the requests sent so far, oldest first. *)
Record World : Type := mkWorld {
  network : list Request -> Request -> attempt Response;
  sent : list Request
}.

Definition requests_request (req : Request) (w : World) : attempt Response * World :=
  (network w (sent w) req, mkWorld (network w) (sent w ++ [req])).

(** ** The client *)

(** Line 35: the one exception class the module defines. *)
Inductive client_exc_class : Type :=
| SimpleEsClientError.

(** An exception object the client raises: its class, its message, and
    the exception it was raised [from], kept as [__cause__]. *)
Record client_exc : Type := mkExc {
  exc_type : client_exc_class;
  message : string;
  cause : exn
}.

(** What a client method does: return a value, raise an exception of its
    own, or let an exception of another class pass through as it is. *)
Inductive outcome : Type :=
| Returns (v : Json.value)
| Raises (e : client_exc)
| Escapes (e : Py.PyException).

Record SimpleEsClient : Type := mkClient {
  base_url : string;
  auth : option (string * string);
  headers : list (string * string);
  verify_ssl : bool
}.

(** Lines 44-49. *)
Definition __init__ (base_url : string) (auth : option (string * string))
  (verify_ssl : bool) : SimpleEsClient :=
  mkClient (if Py.endswith_slash base_url then Py.drop_last base_url else base_url)
           auth
           [("Content-Type", "application/json")]
           verify_ssl.

(** Lines 59-62: what follows [requests.request] inside the [try]. *)
Definition after_response (method : string) (response : Response) : attempt Json.value :=
  _ <- raise_for_status response ;;
  if (status_code response =? 204)%Z || negb (Py.truthy (content response))
  then Done (JObject [("acknowledged", JBool true);
                      ("status", JInt (status_code response));
                      ("operation", JString method)])
  else response_json response.

(** Lines 63-73: the three [except] clauses, tried in order: [HTTPError],
    then [SSLError], then [RequestException], which every remaining class
    of [requests.exceptions] derives from; an exception of a class from
    elsewhere matches none and passes through.  Inside the first clause
    [e.response.json()] is tried and a [json.JSONDecodeError] caught
    (lines 65-68), the one of [requests.exceptions] being one; any other
    exception it raises leaves the clause, and the clauses after it do
    not apply to it. *)
Definition handle (e : exn) : outcome :=
  match e with
  | HTTPError response =>
      let error_details :=
        "HTTP Error: " ++ Py.str_int (status_code response) ++ " " ++ reason response in
      match json response with
      | Decoded es_error_body =>
          Raises (mkExc SimpleEsClientError
                    (error_details ++ Py.nl ++ "Details: " ++ Json.dumps es_error_body)
                    e)
      | NotJson _ =>
          Raises (mkExc SimpleEsClientError
                    (error_details ++ Py.nl ++ "Response Body: " ++ text response)
                    e)
      | DecodeFails other =>
          if Py.is_json_decode_error other
          then Raises (mkExc SimpleEsClientError
                         (error_details ++ Py.nl ++ "Response Body: " ++ text response)
                         e)
          else Escapes other
      end
  | RequestsError cls detail =>
      if issubclass cls SSLError
      then Raises (mkExc SimpleEsClientError
                     ("SSL Error: Could not verify certificate. Try unchecking 'Verify SSL Certificate'."
                      ++ Py.nl ++ "Details: " ++ detail)
                     e)
      else Raises (mkExc SimpleEsClientError ("Connection failed: " ++ detail) e)
  | Foreign other => Escapes other
  end.

(** Lines 51-73.  [json_kw] is the keyword argument [json=...] when the
    caller passes one. *)
Definition _make_request (self : SimpleEsClient) (method endpoint : string)
  (json_kw : option Json.value) (w : World) : outcome * World :=
  let url := base_url self ++ "/" ++ endpoint in
  let (response, w') :=
    requests_request
      (mkRequest method url (auth self) (headers self) 10 (verify_ssl self) json_kw) w in
  (match bind response (after_response method) with
   | Done v => Returns v
   | Raised e => handle e
   end, w').

(** Lines 75-82. *)
Definition info (self : SimpleEsClient) : World -> outcome * World :=
  _make_request self "GET" "" None.

Definition search (self : SimpleEsClient) (index : string) (query : Json.value) :=
  _make_request self "POST" (index ++ "/_search") (Some query).

Definition get_document (self : SimpleEsClient) (index doc_id : string) :=
  _make_request self "GET" (index ++ "/_doc/" ++ doc_id) None.

Definition index_document (self : SimpleEsClient) (index : string)
  (document : Json.value) (doc_id : option string) :=
  if Py.truthy_opt doc_id
  then _make_request self "PUT" (index ++ "/_doc/" ++ Py.format_opt doc_id) (Some document)
  else _make_request self "POST" (index ++ "/_doc") (Some document).

Definition update_document (self : SimpleEsClient) (index doc_id : string)
  (payload : Json.value) :=
  _make_request self "POST" (index ++ "/_update/" ++ doc_id) (Some payload).

Definition delete_document (self : SimpleEsClient) (index doc_id : string) :=
  _make_request self "DELETE" (index ++ "/_doc/" ++ doc_id) None.

End Client.


(* ================================================================== *)
(** * The tree normalizer: [ElasticsearchViewer._populate_tree_model] *)
(* ================================================================== *)

Module Viewer.

(** One row of the result tree.  In the program a row is the pair
    [[key_item, value_item]] handed to [appendRow]: [key] is the text of
    the item in column 0, [value] the text of the item in column 1 ([None]
    while [setText] has not been called on it), and [children] are the rows
    appended under the column-0 item. *)
#[local] Unset Elimination Schemes.

Inductive TreeRow : Type :=
| Row (key : string) (value : option string) (children : list TreeRow).

#[local] Set Elimination Schemes.

Definition key (r : TreeRow) : string :=
  match r with Row k _ _ => k end.

Definition value (r : TreeRow) : option string :=
  match r with Row _ v _ => v end.

Definition children (r : TreeRow) : list TreeRow :=
  match r with Row _ _ c => c end.

(** [parent_item.appendRow([key_item, value_item])]. *)
Definition appendRow (parent_item : list TreeRow) (row : TreeRow) : list TreeRow :=
  parent_item ++ [row].

(** The label [f"[{index}]"] of an array element. *)
Definition index_label (index : nat) : string :=
  "[" ++ Py.str_nat index ++ "]".

(** Lines 346-360.  [parent_item] is the list of rows already under the
    parent; the result is that list after the loop.  A [dict] is walked in
    the order of [data.items()], a [list] with [enumerate]; any other value
    matches neither [isinstance] test and leaves the parent untouched.

    The program appends the row first and fills the key item afterwards
    through the alias it still holds; the rows under the key item are the
    same either way, so the row is built with its children. *)
Fixpoint _populate_tree_model (data : Json.value) (parent_item : list TreeRow)
  {struct data} : list TreeRow :=
  match data with
  | JObject items =>
      fold_left
        (fun parent kv =>
           appendRow parent
             (if is_container (snd kv)
              then Row (fst kv) None (_populate_tree_model (snd kv) [])
              else Row (fst kv) (Some (Json.str (snd kv))) []))
        items parent_item
  | JArray elems =>
      snd (fold_left
             (fun st v =>
                (S (fst st),
                 appendRow (snd st)
                   (if is_container v
                    then Row (index_label (fst st)) None (_populate_tree_model v [])
                    else Row (index_label (fst st)) (Some (Json.str v)) [])))
             elems (0, parent_item))
  | _ => parent_item
  end.

(** Lines 342-345: a fresh model whose invisible root has no rows yet. *)
Definition populate_tree (data : Json.value) : list TreeRow :=
  _populate_tree_model data [].

End Viewer.

(* ================================================================== *)
(** * The window: [ElasticsearchViewer] *)
(* ================================================================== *)

Module Gui.

Import Client Viewer.

(** A message box shown to the user: [QMessageBox.warning], [.critical]
    and [.question], with title and text. *)
Inductive Dialog : Type :=
| warning (title text : string)
| critical (title text : string)
| question (title text : string).

(** The answer [QMessageBox.question] returns. *)
Inductive StandardButton : Type :=
| Yes
| No.

(** The widgets the handlers read and write, and what the handlers leave
    outside the window: the clipboard, the message boxes shown (oldest
    first) and the settings handed to [json.dump] for the configuration
    file (oldest first).  The text fields hold what [text()] and
    [toPlainText()] return.  [body_box_shows] is what the body box, a
    [QTextEdit], holds as plain text after [setText(text)]: the text
    itself, unless Qt takes it for rich text and shows its rendering. *)
Record Window : Type := mkWindow {
  host_input : string;
  port_input : string;
  index_input : string;
  https_checkbox : bool;
  verify_ssl_checkbox : bool;
  auth_checkbox : bool;
  user_input : string;
  pass_input : string;
  query_input : string;
  doc_id_input : string;
  doc_body_input : string;
  results_tree : list TreeRow;
  status_bar : string;
  clipboard : option string;
  dialogs : list Dialog;
  config_writes : list Json.value;
  body_box_shows : string -> string
}.

(** [self.status_bar.showMessage(msg)]. *)
Definition showMessage (msg : string) (ui : Window) : Window :=
  mkWindow (host_input ui) (port_input ui) (index_input ui) (https_checkbox ui)
           (verify_ssl_checkbox ui) (auth_checkbox ui) (user_input ui) (pass_input ui)
           (query_input ui) (doc_id_input ui) (doc_body_input ui) (results_tree ui)
           msg (clipboard ui) (dialogs ui) (config_writes ui)
           (body_box_shows ui).

(** Showing a message box. *)
Definition show (d : Dialog) (ui : Window) : Window :=
  mkWindow (host_input ui) (port_input ui) (index_input ui) (https_checkbox ui)
           (verify_ssl_checkbox ui) (auth_checkbox ui) (user_input ui) (pass_input ui)
           (query_input ui) (doc_id_input ui) (doc_body_input ui) (results_tree ui)
           (status_bar ui) (clipboard ui) (dialogs ui ++ [d]) (config_writes ui)
           (body_box_shows ui).

(** [self.doc_id_input.setText(text)]. *)
Definition set_doc_id (text : string) (ui : Window) : Window :=
  mkWindow (host_input ui) (port_input ui) (index_input ui) (https_checkbox ui)
           (verify_ssl_checkbox ui) (auth_checkbox ui) (user_input ui) (pass_input ui)
           (query_input ui) text (doc_body_input ui) (results_tree ui)
           (status_bar ui) (clipboard ui) (dialogs ui) (config_writes ui)
           (body_box_shows ui).

(** Giving the body box a plain text. *)
Definition set_doc_body (text : string) (ui : Window) : Window :=
  mkWindow (host_input ui) (port_input ui) (index_input ui) (https_checkbox ui)
           (verify_ssl_checkbox ui) (auth_checkbox ui) (user_input ui) (pass_input ui)
           (query_input ui) (doc_id_input ui) text (results_tree ui)
           (status_bar ui) (clipboard ui) (dialogs ui) (config_writes ui)
           (body_box_shows ui).

(** [self.doc_body_input.setText(text)]: Qt guesses the format. *)
Definition doc_body_setText (text : string) (ui : Window) : Window :=
  set_doc_body (body_box_shows ui text) ui.

(** [self.doc_body_input.clear()]. *)
Definition doc_body_clear (ui : Window) : Window :=
  set_doc_body "" ui.

(** [QApplication.clipboard().setText(text)]. *)
Definition set_clipboard (text : string) (ui : Window) : Window :=
  mkWindow (host_input ui) (port_input ui) (index_input ui) (https_checkbox ui)
           (verify_ssl_checkbox ui) (auth_checkbox ui) (user_input ui) (pass_input ui)
           (query_input ui) (doc_id_input ui) (doc_body_input ui) (results_tree ui)
           (status_bar ui) (Some text) (dialogs ui) (config_writes ui)
           (body_box_shows ui).

(** Lines 342-345: [populate_tree] gives the view a fresh model filled
    from [data]. *)
Definition populate_tree (data : Json.value) (ui : Window) : Window :=
  mkWindow (host_input ui) (port_input ui) (index_input ui) (https_checkbox ui)
           (verify_ssl_checkbox ui) (auth_checkbox ui) (user_input ui) (pass_input ui)
           (query_input ui) (doc_id_input ui) (doc_body_input ui)
           (Viewer.populate_tree data)
           (status_bar ui) (clipboard ui) (dialogs ui) (config_writes ui)
           (body_box_shows ui).

(** Lines 261-265: the settings [save_settings] hands to [json.dump]; an
    [IOError] while writing is swallowed, so only the attempt is known. *)
Definition settings (ui : Window) : Json.value :=
  JObject [("host", JString (host_input ui));
           ("port", JString (port_input ui));
           ("index", JString (index_input ui));
           ("https_enabled", JBool (https_checkbox ui));
           ("verify_ssl", JBool (verify_ssl_checkbox ui));
           ("auth_enabled", JBool (auth_checkbox ui));
           ("username", JString (user_input ui));
           ("password", JString (pass_input ui));
           ("query", JString (query_input ui))].

Definition save_settings (ui : Window) : Window :=
  mkWindow (host_input ui) (port_input ui) (index_input ui) (https_checkbox ui)
           (verify_ssl_checkbox ui) (auth_checkbox ui) (user_input ui) (pass_input ui)
           (query_input ui) (doc_id_input ui) (doc_body_input ui) (results_tree ui)
           (status_bar ui) (clipboard ui) (dialogs ui)
           (config_writes ui ++ [settings ui])
           (body_box_shows ui).

(** Lines 215-245.  [selected] holds, for each selected index in the
    order of [selectedIndexes()], the row it lies in; the key is read from
    column 0 and the value from column 1 of that row. *)
Definition copy_selection_to_clipboard (selected : list TreeRow) (ui : Window) : Window :=
  match selected with
  | [] => ui
  | selected_row :: _ =>
      let key_text := key selected_row in
      let text_to_copy :=
        if Py.truthy_opt (value selected_row)
        then key_text ++ ": " ++ Py.format_opt (value selected_row)
        else key_text in
      if Py.truthy text_to_copy
      then showMessage ("Copied: '" ++ text_to_copy ++ "'") (set_clipboard text_to_copy ui)
      else ui
  end.

(** Lines 248-259. *)
Definition _get_client (ui : Window) : option SimpleEsClient * Window :=
  let host := Py.strip (host_input ui) in
  let port := Py.strip (port_input ui) in
  if negb (Py.truthy host) || negb (Py.truthy port)
  then (None, show (warning "Input Error" "Host and Port cannot be empty.") ui)
  else
    let scheme := if https_checkbox ui then "https" else "http" in
    let verify_ssl := verify_ssl_checkbox ui in
    let base_url := scheme ++ "://" ++ host ++ ":" ++ port in
    let auth_tuple :=
      if auth_checkbox ui then Some (user_input ui, pass_input ui) else None in
    (Some (__init__ base_url auth_tuple verify_ssl), ui).

(** An exception no handler catches: the two a handler runs into itself,
    and one that passed through the client. *)
Inductive uncaught : Type :=
| AttributeError
| TypeError
| Passed (e : Py.PyException).

(** How a handler ends. *)
Inductive completion : Type :=
| Finished
| Uncaught (e : uncaught).

Section Handlers.

(** [json.loads] on the text of an input box: the decoded value, or the
    message of the [json.JSONDecodeError]. *)
Variable loads : string -> Json.value + string.

(** Lines 294-303.  The first [except] clause also catches a
    [json.JSONDecodeError] that passed through the client. *)
Definition execute_search (ui : Window) (w : World) : completion * Window * World :=
  let (client, ui) := _get_client ui in
  let index_name := Py.strip (index_input ui) in
  match client with
  | Some client =>
      if Py.truthy index_name
      then
        match loads (query_input ui) with
        | inl query_json =>
            let ui :=
              showMessage ("Executing search on index " ++ Json.dquote ++ index_name
                           ++ Json.dquote ++ "...") ui in
            let (response, w) := search client index_name query_json w in
            match response with
            | Returns response =>
                (Finished,
                 save_settings
                   (showMessage "Search successful. Settings saved."
                      (populate_tree response ui)),
                 w)
            | Raises e => (Finished, show (critical "Client Error" (message e)) ui, w)
            | Escapes e =>
                if Py.is_json_decode_error e
                then (Finished,
                      show (critical "JSON Error"
                              ("Invalid JSON in query box:" ++ Py.nl ++ Py.exc_text e)) ui,
                      w)
                else (Uncaught (Passed e), ui, w)
            end
        | inr e =>
            (Finished,
             show (critical "JSON Error" ("Invalid JSON in query box:" ++ Py.nl ++ e)) ui,
             w)
        end
      else (Finished,
            show (warning "Input Error" "Host, Port, and Index are required.") ui, w)
  | None => (Finished,
             show (warning "Input Error" "Host, Port, and Index are required.") ui, w)
  end.

(** Lines 304-311.  [response.get] exists on a [dict] only. *)
Definition execute_get (ui : Window) (w : World) : completion * Window * World :=
  let (client, ui) := _get_client ui in
  let index := Py.strip (index_input ui) in
  let doc_id := Py.strip (doc_id_input ui) in
  match client with
  | Some client =>
      if Py.truthy index && Py.truthy doc_id
      then
        let ui := showMessage ("Getting document '" ++ doc_id ++ "'...") ui in
        let (response, w) := get_document client index doc_id w in
        match response with
        | Returns response =>
            let ui := populate_tree response ui in
            match response with
            | JObject items =>
                (Finished,
                 showMessage ("Get document '" ++ doc_id ++ "' successful.")
                   (doc_body_setText
                      (Json.dumps_indent 2 0 (Json.dict_get items "_source" (JObject [])))
                      ui),
                 w)
            | _ => (Uncaught AttributeError, ui, w)
            end
        | Raises e => (Finished, show (critical "Client Error" (message e)) ui, w)
        | Escapes e => (Uncaught (Passed e), ui, w)
        end
      else (Finished,
            show (warning "Input Error" "Host, Port, Index and Document ID are required.") ui,
            w)
  | None => (Finished,
             show (warning "Input Error" "Host, Port, Index and Document ID are required.") ui,
             w)
  end.

(** Lines 312-322.  [doc_id] is [None] when the box is blank;
    [setText] takes a [str] only. *)
Definition execute_index (ui : Window) (w : World) : completion * Window * World :=
  let (client, ui) := _get_client ui in
  let index := Py.strip (index_input ui) in
  let doc_id :=
    if Py.truthy (Py.strip (doc_id_input ui))
    then Some (Py.strip (doc_id_input ui)) else None in
  match client with
  | Some client =>
      if Py.truthy index
      then
        match loads (doc_body_input ui) with
        | inl doc_body =>
            let ui := showMessage ("Indexing document in '" ++ index ++ "'...") ui in
            let (response, w) := index_document client index doc_body doc_id w in
            match response with
            | Returns response =>
                let ui := populate_tree response ui in
                match response with
                | JObject items =>
                    if Json.truthy (Json.dict_get items "_id" JNull)
                    then
                      match Json.dict_get items "_id" JNull with
                      | JString id =>
                          (Finished,
                           showMessage "Index operation successful." (set_doc_id id ui), w)
                      | _ => (Uncaught TypeError, ui, w)
                      end
                    else (Finished, showMessage "Index operation successful." ui, w)
                | _ => (Uncaught AttributeError, ui, w)
                end
            | Raises e => (Finished, show (critical "Client Error" (message e)) ui, w)
            | Escapes e =>
                if Py.is_json_decode_error e
                then (Finished,
                      show (critical "JSON Error"
                              ("Invalid JSON in document body:" ++ Py.nl ++ Py.exc_text e)) ui,
                      w)
                else (Uncaught (Passed e), ui, w)
            end
        | inr e =>
            (Finished,
             show (critical "JSON Error" ("Invalid JSON in document body:" ++ Py.nl ++ e)) ui,
             w)
        end
      else (Finished,
            show (warning "Input Error" "Host, Port, and Index are required.") ui, w)
  | None => (Finished,
             show (warning "Input Error" "Host, Port, and Index are required.") ui, w)
  end.

(** Lines 323-331. *)
Definition execute_update (ui : Window) (w : World) : completion * Window * World :=
  let (client, ui) := _get_client ui in
  let index := Py.strip (index_input ui) in
  let doc_id := Py.strip (doc_id_input ui) in
  match client with
  | Some client =>
      if Py.truthy index && Py.truthy doc_id
      then
        match loads (doc_body_input ui) with
        | inl payload =>
            let ui := showMessage ("Updating document '" ++ doc_id ++ "'...") ui in
            let (response, w) := update_document client index doc_id payload w in
            match response with
            | Returns response =>
                (Finished,
                 showMessage "Update operation successful." (populate_tree response ui), w)
            | Raises e => (Finished, show (critical "Client Error" (message e)) ui, w)
            | Escapes e =>
                if Py.is_json_decode_error e
                then (Finished,
                      show (critical "JSON Error"
                              ("Invalid JSON in update payload:" ++ Py.nl ++ Py.exc_text e)) ui,
                      w)
                else (Uncaught (Passed e), ui, w)
            end
        | inr e =>
            (Finished,
             show (critical "JSON Error" ("Invalid JSON in update payload:" ++ Py.nl ++ e)) ui,
             w)
        end
      else (Finished,
            show (warning "Input Error" "Host, Port, Index and Document ID are required.") ui,
            w)
  | None => (Finished,
             show (warning "Input Error" "Host, Port, Index and Document ID are required.") ui,
             w)
  end.

(** Lines 332-341.  [confirm] is the button the user answers the question
    with. *)
Definition execute_delete (confirm : StandardButton) (ui : Window) (w : World)
  : completion * Window * World :=
  let (client, ui) := _get_client ui in
  let index := Py.strip (index_input ui) in
  let doc_id := Py.strip (doc_id_input ui) in
  match client with
  | Some client =>
      if Py.truthy index && Py.truthy doc_id
      then
        let ui :=
          show (question "Confirm Delete"
                  ("Are you sure you want to delete document '" ++ doc_id
                   ++ "' from index '" ++ index ++ "'?")) ui in
        match confirm with
        | No => (Finished, ui, w)
        | Yes =>
            let ui := showMessage ("Deleting document '" ++ doc_id ++ "'...") ui in
            let (response, w) := delete_document client index doc_id w in
            match response with
            | Returns response =>
                (Finished,
                 doc_body_clear
                   (set_doc_id ""
                      (showMessage "Delete operation successful."
                         (populate_tree response ui))),
                 w)
            | Raises e => (Finished, show (critical "Client Error" (message e)) ui, w)
            | Escapes e => (Uncaught (Passed e), ui, w)
            end
        end
      else (Finished,
            show (warning "Input Error" "Host, Port, Index and Document ID are required.") ui,
            w)
  | None => (Finished,
             show (warning "Input Error" "Host, Port, Index and Document ID are required.") ui,
             w)
  end.

End Handlers.

End Gui.

(* ================================================================== *)
(** * Vocabulary of the specification *)
(* ================================================================== *)

Module Spec.

Import Client.

(** The six operations of the document client. *)
Inductive operation : Type :=
| Info
| Search (index : string) (query : Json.value)
| GetDocument (index doc_id : string)
| IndexDocument (index : string) (document : Json.value) (doc_id : option string)
| UpdateDocument (index doc_id : string) (payload : Json.value)
| DeleteDocument (index doc_id : string).

(** Running an operation is calling the method of that name. *)
Definition perform (self : SimpleEsClient) (op : operation) : World -> outcome * World :=
  match op with
  | Info => info self
  | Search index query => search self index query
  | GetDocument index doc_id => get_document self index doc_id
  | IndexDocument index document doc_id => index_document self index document doc_id
  | UpdateDocument index doc_id payload => update_document self index doc_id payload
  | DeleteDocument index doc_id => delete_document self index doc_id
  end.

(** The request [{method} {base}/{endpoint}] with the client's settings. *)
Definition request (self : SimpleEsClient) (method endpoint : string)
  (body : option Json.value) : Request :=
  mkRequest method (base_url self ++ "/" ++ endpoint)
            (auth self) (headers self) 10 (verify_ssl self) body.

(** The request section 4.1 lists for each operation. *)
Definition request_of (self : SimpleEsClient) (op : operation) : Request :=
  match op with
  | Info => request self "GET" "" None
  | Search index query => request self "POST" (index ++ "/_search") (Some query)
  | GetDocument index doc_id => request self "GET" (index ++ "/_doc/" ++ doc_id) None
  | IndexDocument index document (Some (String c id)) =>
      request self "PUT" (index ++ "/_doc/" ++ String c id) (Some document)
  | IndexDocument index document _ =>
      request self "POST" (index ++ "/_doc") (Some document)
  | UpdateDocument index doc_id payload =>
      request self "POST" (index ++ "/_update/" ++ doc_id) (Some payload)
  | DeleteDocument index doc_id =>
      request self "DELETE" (index ++ "/_doc/" ++ doc_id) None
  end.

(** An error status in the sense of [raise_for_status]: 4xx or 5xx. *)
Definition is_error_status (status : Z) : bool :=
  (400 <=? status)%Z && (status <? 600)%Z.

(** A success status: 2xx. *)
Definition is_2xx (status : Z) : bool :=
  (200 <=? status)%Z && (status <? 300)%Z.

(** The acknowledgement object of response rule 2. *)
Definition acknowledgement (status : Z) (method : string) : Json.value :=
  JObject [("acknowledged", JBool true);
           ("status", JInt status);
           ("operation", JString method)].

(** The error of response rule 3 as the program words it: the status
    code and the reason phrase on the first line, the details on the
    second. *)
Definition http_error_message (response : Response) (details : string) : string :=
  "HTTP Error: " ++ Py.str_int (status_code response) ++ " " ++ reason response
  ++ Py.nl ++ details.

(** The three failure variants of section 7. *)
Inductive failure : Type :=
| HttpFailure
| TlsFailure
| ConnectionFailure.

(** The exception that decoding the body of an error response raises
    and the inner [except] clause (line 68) does not catch, if any. *)
Definition uncaught_decoding (response : Response) : option Py.PyException :=
  match json response with
  | DecodeFails other => if Py.is_json_decode_error other then None else Some other
  | _ => None
  end.

(** Telling the variants apart from the message of the raised error. *)
Definition failure_of_message (msg : string) : option failure :=
  if Py.startswith "HTTP Error: " msg then Some HttpFailure
  else if Py.startswith "SSL Error: " msg then Some TlsFailure
  else if Py.startswith "Connection failed: " msg then Some ConnectionFailure
  else None.

(** The variant an exception of the HTTP library stands for: an
    [HTTPError] is an HTTP failure, an [SSLError] a TLS failure, any other
    exception of [requests.exceptions] a connection failure; an exception
    of a class from elsewhere is none of the three. *)
Definition failure_of_exn (e : exn) : option failure :=
  match e with
  | HTTPError _ => Some HttpFailure
  | RequestsError cls _ =>
      Some (if issubclass cls SSLError then TlsFailure else ConnectionFailure)
  | Foreign _ => None
  end.

End Spec.

(* ================================================================== *)
(** * Vocabulary of the specification: trees *)
(* ================================================================== *)

Module TreeSpec.

Import Viewer.

(** The row both loops of [_populate_tree_model] append for an entry
    labelled [label] that holds [v]. *)
Definition row_of (label : string) (v : Json.value) : TreeRow :=
  if is_container v
  then Row label None (_populate_tree_model v [])
  else Row label (Some (Json.str v)) [].

(** [enumerate(elems)] counted from [start]: each element with its index. *)
Definition enumerate (start : nat) (elems : list Json.value) : list (nat * Json.value) :=
  combine (seq start (length elems)) elems.

(** A row and every row below it, depth first. *)
Fixpoint all_rows (r : TreeRow) : list TreeRow :=
  match r with
  | Row _ _ kids => r :: flat_map all_rows kids
  end.

Definition has_value (r : TreeRow) : bool :=
  match value r with
  | Some _ => true
  | None => false
  end.

Definition has_children (r : TreeRow) : bool :=
  match children r with
  | [] => false
  | _ :: _ => true
  end.

(** ** The shape of a JSON value

    What is left of a value once every scalar is replaced by its string
    form: keys, their order, the nesting, and the strings. *)
#[local] Unset Elimination Schemes.

Inductive shape : Type :=
| SValue (s : string)
| SObject (items : list (string * shape))
| SArray (elems : list shape).

#[local] Set Elimination Schemes.

Fixpoint shape_of (v : Json.value) : shape :=
  match v with
  | JObject items => SObject (map (fun kv => (fst kv, shape_of (snd kv))) items)
  | JArray elems => SArray (map shape_of elems)
  | _ => SValue (Json.str v)
  end.

Fixpoint labels_eqb (a b : list string) : bool :=
  match a, b with
  | [], [] => true
  | x :: a', y :: b' => String.eqb x y && labels_eqb a' b'
  | _, _ => false
  end.

(** The labels are [[0]], [[1]], ... up to their number, and there is at
    least one: what the rows of a non-empty array look like. *)
Definition is_index_labels (labels : list string) : bool :=
  match labels with
  | [] => false
  | _ :: _ => labels_eqb labels (map index_label (seq 0 (length labels)))
  end.

(** Reading a shape back from rows: a row with a value is a scalar; a row
    without one is an array when its children carry index labels and an
    object otherwise. *)
Fixpoint rebuild_row (r : TreeRow) : shape :=
  match r with
  | Row _ (Some s) _ => SValue s
  | Row _ None kids =>
      if is_index_labels (map key kids)
      then SArray (map rebuild_row kids)
      else SObject (map (fun c => (key c, rebuild_row c)) kids)
  end.

Definition rebuild (rows : list TreeRow) : shape :=
  if is_index_labels (map key rows)
  then SArray (map rebuild_row rows)
  else SObject (map (fun c => (key c, rebuild_row c)) rows).

(** No array in [v] is empty and no object in [v] has the index labels
    [[0]], ..., [[n-1]] as its keys: the values whose rows can be read in
    one way only. *)
Fixpoint unambiguous (v : Json.value) : bool :=
  match v with
  | JObject items =>
      negb (is_index_labels (map fst items))
      && forallb (fun kv => unambiguous (snd kv)) items
  | JArray elems =>
      match elems with
      | [] => false
      | _ :: _ => forallb unambiguous elems
      end
  | _ => true
  end.

(** Every key and every index label of a value, depth first. *)
Fixpoint labels_of (v : Json.value) : list string :=
  match v with
  | JObject items => flat_map (fun kv => fst kv :: labels_of (snd kv)) items
  | JArray elems =>
      (fix walk (index : nat) (l : list Json.value) : list string :=
         match l with
         | [] => []
         | x :: rest => ((index_label index :: labels_of x) ++ walk (S index) rest)%list
         end) 0 elems
  | _ => []
  end.

(** The string form of every scalar of a value, depth first. *)
Fixpoint scalars_of (v : Json.value) : list string :=
  match v with
  | JObject items => flat_map (fun kv => scalars_of (snd kv)) items
  | JArray elems => flat_map scalars_of elems
  | _ => [Json.str v]
  end.

(** The key of a row and of every row below it, depth first. *)
Fixpoint row_keys (r : TreeRow) : list string :=
  match r with
  | Row k _ kids => k :: flat_map row_keys kids
  end.

(** The value of a row and of every row below it, depth first. *)
Fixpoint row_values (r : TreeRow) : list string :=
  match r with
  | Row _ v kids =>
      (match v with
       | Some s => [s]
       | None => []
       end ++ flat_map row_values kids)%list
  end.

(** ** The entries of a value

    Every key of every object and every index of every array in a value,
    each with the value it holds, depth first; an index [i] is written
    as the decimal digits of [i] between square brackets. *)
Definition bracketed (i : nat) : string :=
  "[" ++ NilEmpty.string_of_uint (Nat.to_uint i) ++ "]".

Fixpoint entries (v : Json.value) : list (string * Json.value) :=
  match v with
  | JObject items => flat_map (fun kv => (fst kv, snd kv) :: entries (snd kv)) items
  | JArray elems =>
      (fix walk (index : nat) (l : list Json.value) : list (string * Json.value) :=
         match l with
         | [] => []
         | x :: rest => (((bracketed index, x) :: entries x) ++ walk (S index) rest)%list
         end) 0 elems
  | _ => []
  end.

(** What an entry holds: a scalar, a container with members, or an
    empty container. *)
Inductive kind : Type :=
| Scalar
| Filled
| Empty.

Definition kind_of (v : Json.value) : kind :=
  match v with
  | JObject [] | JArray [] => Empty
  | JObject _ | JArray _ => Filled
  | _ => Scalar
  end.

(** A row stands for an entry when it carries its label and: for a
    scalar, its string form as value and no children; for a container
    with members, no value and some children; for an empty container,
    neither. *)
Definition stands_for (r : TreeRow) (entry : string * Json.value) : Prop :=
  key r = fst entry
  /\ match kind_of (snd entry) with
     | Scalar => value r = Some (Json.str (snd entry)) /\ children r = []
     | Filled => value r = None /\ children r <> []
     | Empty => value r = None /\ children r = []
     end.

End TreeSpec.

(* ================================================================== *)
(** * Vocabulary for the window *)
(* ================================================================== *)

Module GuiSpec.

Import Client Gui Spec.

(** The five buttons; Delete comes with the answer to its question. *)
Inductive action : Type :=
| PressSearch
| PressGet
| PressIndex
| PressUpdate
| PressDelete (answer : StandardButton).

(** Pressing a button runs the handler connected to it (lines 156,
    179-182). *)
Definition run (loads : string -> Json.value + string) (a : action)
  : Window -> World -> completion * Window * World :=
  match a with
  | PressSearch => execute_search loads
  | PressGet => execute_get
  | PressIndex => execute_index loads
  | PressUpdate => execute_update loads
  | PressDelete answer => execute_delete answer
  end.

(** A box is blank when nothing is left of its text after [strip()]. *)
Definition blank (text : string) : bool := negb (Py.truthy (Py.strip text)).

(** The handlers that insist on a document id. *)
Definition needs_id (a : action) : bool :=
  match a with
  | PressGet | PressUpdate | PressDelete _ => true
  | PressSearch | PressIndex => false
  end.

(** The box whose text the handler decodes as JSON, if it decodes one. *)
Definition json_box (a : action) (ui : Window) : option string :=
  match a with
  | PressSearch => Some (query_input ui)
  | PressIndex | PressUpdate => Some (doc_body_input ui)
  | PressGet | PressDelete _ => None
  end.

(** The client operation a button press comes down to, if any, with the
    texts of the index and id boxes stripped. *)
Definition call (loads : string -> Json.value + string) (a : action) (ui : Window)
  : option (SimpleEsClient * operation) :=
  match fst (_get_client ui) with
  | None => None
  | Some client =>
      let index := Py.strip (index_input ui) in
      let doc_id := Py.strip (doc_id_input ui) in
      if blank (index_input ui) || (needs_id a && blank (doc_id_input ui))
      then None
      else
        match a with
        | PressSearch =>
            match loads (query_input ui) with
            | inl query => Some (client, Search index query)
            | inr _ => None
            end
        | PressGet => Some (client, GetDocument index doc_id)
        | PressIndex =>
            match loads (doc_body_input ui) with
            | inl document =>
                Some (client,
                      IndexDocument index document
                        (if blank (doc_id_input ui) then None else Some doc_id))
            | inr _ => None
            end
        | PressUpdate =>
            match loads (doc_body_input ui) with
            | inl payload => Some (client, UpdateDocument index doc_id payload)
            | inr _ => None
            end
        | PressDelete Yes => Some (client, DeleteDocument index doc_id)
        | PressDelete No => None
        end
  end.

(** What the user typed and ticked. *)
Definition inputs (ui : Window) :=
  (host_input ui, port_input ui, index_input ui,
   https_checkbox ui, verify_ssl_checkbox ui, auth_checkbox ui,
   user_input ui, pass_input ui, query_input ui,
   doc_id_input ui, doc_body_input ui).

(** Nothing but the status bar and the message boxes differs. *)
Definition only_messages (before after : Window) : Prop :=
  inputs after = inputs before
  /\ results_tree after = results_tree before
  /\ clipboard after = clipboard before
  /\ config_writes after = config_writes before.

(** Every character of the text is white space. *)
Fixpoint all_space (s : string) : bool :=
  match s with
  | EmptyString => true
  | String c rest => Py.isspace c && all_space rest
  end.

(** The first line of a text: what comes before the first line feed. *)
Fixpoint first_line (text : string) : string :=
  match text with
  | EmptyString => EmptyString
  | String c rest =>
      if Ascii.eqb c (ascii_of_nat 10) then EmptyString else String c (first_line rest)
  end.

(** No character of the text is ['<'] or ['&']. *)
Fixpoint no_markup (text : string) : bool :=
  match text with
  | EmptyString => true
  | String c rest =>
      negb (Ascii.eqb c "<"%char) && negb (Ascii.eqb c "&"%char) && no_markup rest
  end.

(** A text Qt does not take for rich text: [Qt::mightBeRichText] skips
    leading white space and then looks for a tag or an entity before the
    first line feed only. *)
Definition plain_at_first_sight (text : string) : bool :=
  match text with
  | EmptyString => true
  | String c _ => negb (Py.isspace c) && no_markup (first_line text)
  end.

(** The three parts of what a handler leaves. *)
Definition completion_after (r : completion * Window * World) : completion := fst (fst r).
Definition window_after (r : completion * Window * World) : Window := snd (fst r).
Definition world_after (r : completion * Window * World) : World := snd r.

End GuiSpec.

(* ================================================================== *)
(** * Concrete clients, responses and networks used below *)
(* ================================================================== *)

Module Sample.

Import Client Spec.

Definition client : SimpleEsClient :=
  __init__ "http://localhost:9200/" None true.

Definition secure_client : SimpleEsClient :=
  __init__ "https://es.example.org:9243" (Some ("elastic", "changeme")) true.

(** A network that gives the same answer to every request. *)
Definition always (answer : attempt Response) : World :=
  mkWorld (fun _ _ => answer) [].

Definition not_found_payload : Json.value :=
  JObject [("error", JString "not_found")].

Definition not_found : Response :=
  mkResponse 404 "Not Found" (Json.dumps not_found_payload) (Decoded not_found_payload).

Definition bad_gateway : Response :=
  mkResponse 502 "Bad Gateway" "<html>upstream down</html>"
             (NotJson "Expecting value: line 1 column 1 (char 0)").

Definition server_error_no_body : Response :=
  mkResponse 500 "Internal Server Error" ""
             (NotJson "Expecting value: line 1 column 1 (char 0)").

(** The digit [1] written [n] times. *)
Fixpoint ones (n : nat) : string :=
  match n with
  | O => EmptyString
  | S n' => String "1"%char (ones n')
  end.

(** A 400 response whose body is an integer of more digits than Python
    converts: decoding it raises a [ValueError]. *)
Definition too_many_digits : Response :=
  mkResponse 400 "Bad Request" (ones 4301)
             (DecodeFails
                (Py.mkPyException "ValueError"
                   "Exceeds the limit (4300 digits) for integer string conversion: value has 4301 digits; use sys.set_int_max_str_digits() to increase the limit"
                   false)).

Definition multiple_choices : Response :=
  mkResponse 300 "Multiple Choices" "{}" (Decoded (JObject [])).

Definition no_content : Response :=
  mkResponse 204 "No Content" "" (NotJson "Expecting value: line 1 column 1 (char 0)").

Definition created_payload : Json.value :=
  JObject [("_id", JString "42"); ("result", JString "created")].

Definition created : Response :=
  mkResponse 201 "Created" (Json.dumps created_payload) (Decoded created_payload).

(** What [requests.request] lets through for the host [a..b]: an
    exception of [urllib3], which is no [RequestException]. *)
Definition bad_host : attempt Response :=
  Raised (Foreign (Py.mkPyException "LocationParseError"
                     "Failed to parse: 'a..b', label empty or too long" false)).

Definition client_of_bad_host : SimpleEsClient :=
  __init__ "http://a..b:9200" None true.

Definition tls_failure : attempt Response :=
  Raised (RequestsError SSLError "certificate verify failed: self-signed certificate").

Definition refused : attempt Response :=
  Raised (RequestsError ConnectionError "Connection refused").

Definition timed_out : attempt Response :=
  Raised (RequestsError ConnectTimeout "timed out").

(** The search response of the example in section 8. *)
Definition search_response : Json.value :=
  JObject [("hits",
            JObject [("hits", JArray [JObject [("_id", JString "a")];
                                      JObject [("_id", JString "b")]])])].

(** A document with every kind of scalar and two empty containers. *)
Definition document : Json.value :=
  JObject [("name", JString "disk-7");
           ("size", JInt 512);
           ("load", JFloat "0.75");
           ("ok", JBool true);
           ("owner", JNull);
           ("tags", JArray [JString "a"; JString ""]);
           ("meta", JObject []);
           ("history", JArray [])].

(** The body box of the sample windows: a text whose first line holds no
    ['<'] and no ['&'] is no rich text for Qt and is kept as it is.  The
    samples give the body box no other text; for one that Qt would
    render, this stand-in does not say what is shown. *)
Definition kept_as_plain_text (text : string) : string := text.

(** A body box that renders the one rich text given to it below. *)
Definition renders_bold (text : string) : string :=
  if String.eqb text (Json.dquote ++ "<b>bold</b> text" ++ Json.dquote)
  then Json.dquote ++ "bold text" ++ Json.dquote
  else text.

(** A window filled in for a local cluster, boxes padded with blanks. *)
Definition window : Gui.Window :=
  Gui.mkWindow " localhost " "9200" " my-index " false true false "" ""
               "{}" " 42 " "{}"
               [Viewer.Row "old" (Some "row") []] "" None [] []
               kept_as_plain_text.

(** The same window with the id box left empty. *)
Definition window_without_id : Gui.Window :=
  Gui.mkWindow " localhost " "9200" " my-index " false true false "" ""
               "{}" "  " "{}"
               [Viewer.Row "old" (Some "row") []] "" None [] []
               kept_as_plain_text.

(** The same window with a body that is not JSON. *)
Definition window_with_bad_body : Gui.Window :=
  Gui.mkWindow " localhost " "9200" " my-index " false true false "" ""
               "{" " 42 " "{"
               [Viewer.Row "old" (Some "row") []] "" None [] []
               kept_as_plain_text.

(** A window with credentials and HTTPS. *)
Definition secure_window : Gui.Window :=
  Gui.mkWindow "es.example.org" " 9243" "logs-2024" true true true "elastic" "changeme"
               "{}" "a" "{}" [] "" None [] []
               kept_as_plain_text.

(** [json.loads] on the texts the sample windows hold: the empty object,
    the empty array, and the object left open.  The last line is the
    answer to a text that is empty or starts with a character no JSON
    value starts with; the windows below hold no text but these. *)
Definition loads (text : string) : Json.value + string :=
  if String.eqb text "{}" then inl (JObject [])
  else if String.eqb text "[]" then inl (JArray [])
  else if String.eqb text "{"
  then inr "Expecting property name enclosed in double quotes: line 1 column 2 (char 1)"
  else inr "Expecting value: line 1 column 1 (char 0)".

Definition found_payload : Json.value :=
  JObject [("_id", JString "42");
           ("_source", JObject [("name", JString "disk-7")])].

(** The window above with the body box that renders. *)
Definition rendering_window : Gui.Window :=
  Gui.mkWindow " localhost " "9200" " my-index " false true false "" ""
               "{}" " 42 " "{}"
               [Viewer.Row "old" (Some "row") []] "" None [] []
               renders_bold.

Definition found_markup_payload : Json.value :=
  JObject [("_id", JString "42"); ("_source", JString "<b>bold</b> text")].

Definition found_markup : Client.Response :=
  Client.mkResponse 200 "OK" (Json.dumps found_markup_payload)
    (Decoded found_markup_payload).

Definition found : Client.Response :=
  Client.mkResponse 200 "OK" (Json.dumps found_payload) (Decoded found_payload).

Definition listing : Client.Response :=
  Client.mkResponse 200 "OK" (Json.dumps (JArray [JString "a"]))
    (Decoded (JArray [JString "a"])).

Definition garbled : Client.Response :=
  Client.mkResponse 200 "OK" "<html>"
    (NotJson "Expecting value: line 1 column 1 (char 0)").

End Sample.

(* ================================================================== *)
(** * Properties of the document client *)
(* ================================================================== *)

Lemma str_append_assoc (a b c : string) : (a ++ b) ++ c = a ++ b ++ c.
Proof. induction a as [|x a IH]; cbn; [reflexivity | now rewrite IH]. Qed.

Section ClientProperties.

Import Client Spec.

Variable self : SimpleEsClient.

Lemma make_request_sent (method endpoint : string) (body : option Json.value) (w : World) :
  sent (snd (_make_request self method endpoint body w))
  = (sent w ++ [request self method endpoint body])%list.
Proof. reflexivity. Qed.

Lemma make_request_outcome (method endpoint : string) (body : option Json.value) (w : World) :
  fst (_make_request self method endpoint body w)
  = match network w (sent w) (request self method endpoint body) with
    | Done response =>
        match after_response method response with
        | Done v => Returns v
        | Raised e => handle e
        end
    | Raised e => handle e
    end.
Proof.
  unfold _make_request, requests_request, request. cbn [fst snd bind].
  destruct (network w (sent w) _); reflexivity.
Qed.

(** Every operation is one call of [_make_request], hence one request. *)
Lemma perform_make_request (op : operation) (w : World) :
  perform self op w
  = _make_request self (req_method (request_of self op))
      (match op with
       | Info => ""
       | Search index _ => index ++ "/_search"
       | GetDocument index doc_id => index ++ "/_doc/" ++ doc_id
       | IndexDocument index _ (Some (String c id)) => index ++ "/_doc/" ++ String c id
       | IndexDocument index _ _ => index ++ "/_doc"
       | UpdateDocument index doc_id _ => index ++ "/_update/" ++ doc_id
       | DeleteDocument index doc_id => index ++ "/_doc/" ++ doc_id
       end)
      (req_json (request_of self op)) w.
Proof.
  destruct op as [ | | | index document [[|c id]|] | | ]; reflexivity.
Qed.

Lemma perform_sent (op : operation) (w : World) :
  sent (snd (perform self op w)) = (sent w ++ [request_of self op])%list.
Proof.
  rewrite perform_make_request, make_request_sent.
  destruct op as [ | | | index document [[|c id]|] | | ]; reflexivity.
Qed.

Lemma perform_outcome (op : operation) (w : World) :
  fst (perform self op w)
  = match network w (sent w) (request_of self op) with
    | Done response =>
        match after_response (req_method (request_of self op)) response with
        | Done v => Returns v
        | Raised e => handle e
        end
    | Raised e => handle e
    end.
Proof.
  rewrite perform_make_request, make_request_outcome.
  destruct op as [ | | | index document [[|c id]|] | | ]; reflexivity.
Qed.

Lemma raise_for_status_error (response : Response) :
  is_error_status (status_code response) = true ->
  raise_for_status response = Raised (HTTPError response).
Proof.
  unfold is_error_status, raise_for_status. intros H.
  apply andb_true_iff in H as [Hlo Hhi].
  apply Z.leb_le in Hlo. apply Z.ltb_lt in Hhi.
  destruct (status_code response <? 500)%Z eqn:E5.
  - replace (400 <=? status_code response)%Z with true by (symmetry; apply Z.leb_le; lia).
    reflexivity.
  - rewrite andb_false_r.
    apply Z.ltb_ge in E5.
    replace (500 <=? status_code response)%Z with true by (symmetry; apply Z.leb_le; lia).
    replace (status_code response <? 600)%Z with true by (symmetry; apply Z.ltb_lt; lia).
    reflexivity.
Qed.

Lemma raise_for_status_pass (response : Response) :
  is_error_status (status_code response) = false ->
  raise_for_status response = Done tt.
Proof.
  unfold is_error_status, raise_for_status. intros H.
  apply andb_false_iff in H.
  destruct (400 <=? status_code response)%Z eqn:E4;
    destruct (status_code response <? 500)%Z eqn:E5;
    destruct (500 <=? status_code response)%Z eqn:E6;
    destruct (status_code response <? 600)%Z eqn:E7;
    cbn; try reflexivity; exfalso;
    repeat match goal with
           | H : (_ <=? _)%Z = true |- _ => apply Z.leb_le in H
           | H : (_ <=? _)%Z = false |- _ => apply Z.leb_gt in H
           | H : (_ <? _)%Z = true |- _ => apply Z.ltb_lt in H
           | H : (_ <? _)%Z = false |- _ => apply Z.ltb_ge in H
           end;
    destruct H as [H|H]; try discriminate; lia.
Qed.

Lemma handle_http_error (response : Response) :
  handle (HTTPError response)
  = match json response with
    | Decoded payload =>
        Raises (mkExc SimpleEsClientError
                  (http_error_message response ("Details: " ++ Json.dumps payload))
                  (HTTPError response))
    | NotJson _ =>
        Raises (mkExc SimpleEsClientError
                  (http_error_message response ("Response Body: " ++ text response))
                  (HTTPError response))
    | DecodeFails other =>
        if Py.is_json_decode_error other
        then Raises (mkExc SimpleEsClientError
                       (http_error_message response ("Response Body: " ++ text response))
                       (HTTPError response))
        else Escapes other
    end.
Proof.
  unfold handle, http_error_message.
  destruct (json response) as [v | msg | other];
    try destruct (Py.is_json_decode_error other);
    rewrite ?str_append_assoc; reflexivity.
Qed.

(** An [HTTPError] is converted unless decoding the body raises an
    exception the inner clause does not catch. *)
Lemma handle_http_error_cases (response : Response) :
  match uncaught_decoding response with
  | Some other => handle (HTTPError response) = Escapes other
  | None =>
      exists raised, handle (HTTPError response) = Raises raised
                     /\ exc_type raised = SimpleEsClientError
                     /\ failure_of_message (message raised) = Some HttpFailure
                     /\ cause raised = HTTPError response
  end.
Proof.
  rewrite handle_http_error. unfold uncaught_decoding.
  destruct (json response) as [v | msg | other];
    try destruct (Py.is_json_decode_error other);
    try reflexivity; eexists; repeat split.
Qed.

Lemma failure_of_http_error_message (response : Response) (details : string) :
  failure_of_message (http_error_message response details) = Some HttpFailure.
Proof. reflexivity. Qed.

(** The third [except] clause catches whatever the second did not. *)
Lemma every_class_is_a_RequestException (c : exc_class) :
  issubclass c RequestException = true.
Proof. destruct c; reflexivity. Qed.

(** What the [except] clauses raise names its variant twice: by the start
    of the message and by the exception kept as its cause. *)
Lemma handle_raises (e : exn) (raised : client_exc) :
  handle e = Raises raised ->
  exc_type raised = SimpleEsClientError
  /\ failure_of_message (message raised) = failure_of_exn e
  /\ cause raised = e.
Proof.
  destruct e as [response | cls detail | other].
  - rewrite handle_http_error.
    destruct (json response) as [v | msg | other];
      try destruct (Py.is_json_decode_error other);
      intros H; try discriminate H; injection H as <-; repeat split.
  - cbn [handle failure_of_exn].
    destruct (issubclass cls SSLError); intros H; injection H as <-; repeat split.
  - discriminate.
Qed.

(** An exception of [requests.exceptions] other than [HTTPError] is
    always converted. *)
Lemma handle_requests_error (cls : exc_class) (detail : string) :
  exists raised, handle (RequestsError cls detail) = Raises raised.
Proof.
  cbn [handle]. destruct (issubclass cls SSLError); eexists; reflexivity.
Qed.

(** The [except] clauses never return a value. *)
Lemma handle_never_returns (e : exn) (v : Json.value) : handle e <> Returns v.
Proof.
  destruct e as [response | cls detail | other]; cbn [handle].
  - destruct (json response) as [v' | msg | other];
      try destruct (Py.is_json_decode_error other); discriminate.
  - destruct (issubclass cls SSLError); discriminate.
  - discriminate.
Qed.

End ClientProperties.

(** ** The primitives at work *)

Example str_int_values :
  Py.str_int 0 = "0" /\ Py.str_int 404 = "404" /\ Py.str_int (-42) = "-42".
Proof. repeat split; reflexivity. Qed.

Example dumps_not_found :
  Json.dumps Sample.not_found_payload
  = "{" ++ Json.dquote ++ "error" ++ Json.dquote ++ ": "
        ++ Json.dquote ++ "not_found" ++ Json.dquote ++ "}".
Proof. reflexivity. Qed.

Example dumps_escapes :
  Json.dumps (JArray [JInt 1; JNull; JFloat "inf"; JString ("a" ++ Py.nl)])
  = "[1, null, Infinity, " ++ Json.dquote ++ "a" ++ Json.backslash ++ "n"
    ++ Json.dquote ++ "]".
Proof. reflexivity. Qed.

Example ssl_error_is_a_connection_error :
  Client.issubclass Client.SSLError Client.ConnectionError = true
  /\ Client.issubclass Client.SSLError Client.RequestException = true
  /\ Client.issubclass Client.ConnectionError Client.SSLError = false
  /\ Client.issubclass Client.JSONDecodeError Client.RequestException = true.
Proof. repeat split; reflexivity. Qed.

(** ** Request construction *)

Example base_url_strips_one_slash :
  Client.base_url Sample.client = "http://localhost:9200"
  /\ Client.base_url (Client.__init__ "http://localhost:9200//" None true)
     = "http://localhost:9200/".
Proof. split; reflexivity. Qed.

(** C1: with a non-empty id [index_document] sends exactly one request, a
    PUT to [{base}/{index}/_doc/{id}] carrying the document; with no id it
    sends exactly one request, a POST to [{base}/{index}/_doc]. *)
Theorem C1_index_document_put_with_id_post_without :
  forall (self : Client.SimpleEsClient) (index : string) (document : Json.value)
         (w : Client.World),
    (forall id : string,
        id <> "" ->
        Client.sent (snd (Client.index_document self index document (Some id) w))
        = (Client.sent w
           ++ [Client.mkRequest "PUT"
                 (Client.base_url self ++ "/" ++ index ++ "/_doc/" ++ id)
                 (Client.auth self) (Client.headers self) 10 (Client.verify_ssl self)
                 (Some document)])%list)
    /\ Client.sent (snd (Client.index_document self index document None w))
       = (Client.sent w
          ++ [Client.mkRequest "POST" (Client.base_url self ++ "/" ++ index ++ "/_doc")
                (Client.auth self) (Client.headers self) 10 (Client.verify_ssl self)
                (Some document)])%list.
Proof.
  intros self index document w. split; [|reflexivity].
  intros [|c id] Hid; [contradiction | reflexivity].
Qed.

Lemma C1_witness :
  Client.sent (snd (Client.index_document Sample.client "my-index" (JObject [])
                      (Some "42") (Sample.always (Client.Done Sample.created))))
  = [Client.mkRequest "PUT" "http://localhost:9200/my-index/_doc/42" None
       [("Content-Type", "application/json")] 10 true (Some (JObject []))]
  /\ Client.sent (snd (Client.index_document Sample.client "my-index" (JObject [])
                         None (Sample.always (Client.Done Sample.created))))
     = [Client.mkRequest "POST" "http://localhost:9200/my-index/_doc" None
          [("Content-Type", "application/json")] 10 true (Some (JObject []))].
Proof.
  destruct (C1_index_document_put_with_id_post_without
              Sample.client "my-index" (JObject [])
              (Sample.always (Client.Done Sample.created))) as [Hput Hpost].
  split; [apply (Hput "42"); discriminate | exact Hpost].
Defined.

(** C10: an empty [doc_id] is falsy, so [index_document] does exactly what
    it does with no id: one POST to [{base}/{index}/_doc], and no PUT to a
    URL that ends in an empty id. *)
Theorem C10_empty_id_behaves_as_no_id :
  forall (self : Client.SimpleEsClient) (index : string) (document : Json.value)
         (w : Client.World),
    Client.index_document self index document (Some "") w
    = Client.index_document self index document None w
    /\ Client.sent (snd (Client.index_document self index document (Some "") w))
       = (Client.sent w
          ++ [Spec.request self "POST" (index ++ "/_doc") (Some document)])%list.
Proof. intros; split; reflexivity. Qed.

(** ** Response handling *)

(** C2 as stated fails: a 300 response is not 2xx, yet nothing is raised
    and the decoded body is returned. *)
Lemma C2_counterexample :
  Spec.is_2xx (Client.status_code Sample.multiple_choices) = false
  /\ fst (Spec.perform Sample.client (Spec.GetDocument "my-index" "1")
            (Sample.always (Client.Done Sample.multiple_choices)))
     = Client.Returns (JObject []).
Proof. split; reflexivity. Qed.

(** C2 (amended): for every operation, a response whose status is from 400
    to 599 makes the operation raise [SimpleEsClientError], with the
    [HTTPError] kept as its cause and the message
    [HTTP Error: {status} {reason}] followed by [Details:] and the
    decoded JSON payload when the body decodes as JSON, and by
    [Response Body:] and the raw text when decoding raises a JSON decode
    error, of [requests] or not; an exception of another class raised by
    the decoding passes through as it is.  A response with any other
    status never makes the operation raise an error whose message starts
    with [HTTP Error: ]. *)
Theorem C2_error_status_raises_http_error :
  forall (self : Client.SimpleEsClient) (op : Spec.operation) (w : Client.World)
         (response : Client.Response),
    Client.network w (Client.sent w) (Spec.request_of self op) = Client.Done response ->
    if Spec.is_error_status (Client.status_code response)
    then
      fst (Spec.perform self op w)
      = match Client.json response with
        | Client.Decoded payload =>
            Client.Raises
              (Client.mkExc Client.SimpleEsClientError
                 ("HTTP Error: " ++ Py.str_int (Client.status_code response) ++ " "
                  ++ Client.reason response ++ Py.nl
                  ++ "Details: " ++ Json.dumps payload)
                 (Client.HTTPError response))
        | Client.NotJson _ =>
            Client.Raises
              (Client.mkExc Client.SimpleEsClientError
                 ("HTTP Error: " ++ Py.str_int (Client.status_code response) ++ " "
                  ++ Client.reason response ++ Py.nl
                  ++ "Response Body: " ++ Client.text response)
                 (Client.HTTPError response))
        | Client.DecodeFails other =>
            if Py.is_json_decode_error other
            then
              Client.Raises
                (Client.mkExc Client.SimpleEsClientError
                   ("HTTP Error: " ++ Py.str_int (Client.status_code response) ++ " "
                    ++ Client.reason response ++ Py.nl
                    ++ "Response Body: " ++ Client.text response)
                   (Client.HTTPError response))
            else Client.Escapes other
        end
    else
      forall e : Client.client_exc,
        fst (Spec.perform self op w) = Client.Raises e ->
        Py.startswith "HTTP Error: " (Client.message e) = false.
Proof.
  intros self op w response Hnet.
  rewrite perform_outcome, Hnet. unfold Client.after_response.
  destruct (Spec.is_error_status (Client.status_code response)) eqn:Hstatus.
  - rewrite (raise_for_status_error response Hstatus). cbn [Client.bind].
    rewrite handle_http_error. unfold Spec.http_error_message.
    destruct (Client.json response) as [v | msg | other];
      try destruct (Py.is_json_decode_error other); reflexivity.
  - rewrite (raise_for_status_pass response Hstatus). cbn [Client.bind].
    intros e.
    destruct ((Client.status_code response =? 204)%Z
              || negb (Py.truthy (Client.content response))); [discriminate|].
    unfold Client.response_json.
    destruct (Client.json response) as [v | msg | other]; cbn [Client.handle];
      try discriminate.
    cbn. intros H. injection H as <-. reflexivity.
Qed.

Lemma C2_witness :
  fst (Spec.perform Sample.client (Spec.GetDocument "my-index" "1")
         (Sample.always (Client.Done Sample.not_found)))
  = Client.Raises
      (Client.mkExc Client.SimpleEsClientError
         ("HTTP Error: 404 Not Found" ++ Py.nl ++ "Details: "
          ++ Json.dumps Sample.not_found_payload)
         (Client.HTTPError Sample.not_found)).
Proof.
  exact (C2_error_status_raises_http_error Sample.client
           (Spec.GetDocument "my-index" "1")
           (Sample.always (Client.Done Sample.not_found)) Sample.not_found eq_refl).
Defined.

Example http_error_raw_text :
  fst (Spec.perform Sample.client Spec.Info (Sample.always (Client.Done Sample.bad_gateway)))
  = Client.Raises
      (Client.mkExc Client.SimpleEsClientError
         ("HTTP Error: 502 Bad Gateway" ++ Py.nl
          ++ "Response Body: <html>upstream down</html>")
         (Client.HTTPError Sample.bad_gateway)).
Proof. reflexivity. Qed.

(** C4 as stated fails: a 500 response with an empty body is not turned
    into an acknowledgement; the operation raises. *)
Lemma C4_counterexample :
  Client.content Sample.server_error_no_body = ""
  /\ fst (Spec.perform Sample.client (Spec.DeleteDocument "my-index" "1")
            (Sample.always (Client.Done Sample.server_error_no_body)))
     = Client.Raises
         (Client.mkExc Client.SimpleEsClientError
            ("HTTP Error: 500 Internal Server Error" ++ Py.nl ++ "Response Body: ")
            (Client.HTTPError Sample.server_error_no_body)).
Proof. split; reflexivity. Qed.

(** C4 (amended): for every operation, a response with status 204, or
    with an empty body and a status that is not from 400 to 599, is
    returned as [{acknowledged: true, status: <status code>, operation:
    <method>}] with the status of the response and the method of the
    request, whatever decoding the body as JSON would give. *)
Theorem C4_empty_response_is_acknowledged :
  forall (self : Client.SimpleEsClient) (op : Spec.operation) (w : Client.World)
         (response : Client.Response),
    Client.network w (Client.sent w) (Spec.request_of self op) = Client.Done response ->
    Client.status_code response = 204%Z
    \/ (Client.content response = ""
        /\ Spec.is_error_status (Client.status_code response) = false) ->
    fst (Spec.perform self op w)
    = Client.Returns
        (Spec.acknowledgement (Client.status_code response)
           (Client.req_method (Spec.request_of self op))).
Proof.
  intros self op w response Hnet Hempty.
  rewrite perform_outcome, Hnet.
  unfold Client.after_response.
  destruct Hempty as [H204 | [Hbody Hstatus]].
  - rewrite raise_for_status_pass by now rewrite H204.
    cbn [Client.bind]. rewrite H204. reflexivity.
  - rewrite (raise_for_status_pass response Hstatus). cbn [Client.bind].
    rewrite Hbody. cbn [Py.truthy negb]. rewrite orb_true_r. reflexivity.
Qed.

Lemma C4_witness :
  fst (Spec.perform Sample.secure_client (Spec.DeleteDocument "logs-2024" "a")
         (Sample.always (Client.Done Sample.no_content)))
  = Client.Returns
      (JObject [("acknowledged", JBool true); ("status", JInt 204);
                ("operation", JString "DELETE")]).
Proof.
  apply (C4_empty_response_is_acknowledged Sample.secure_client
           (Spec.DeleteDocument "logs-2024" "a")
           (Sample.always (Client.Done Sample.no_content)) Sample.no_content);
    [reflexivity | left; reflexivity].
Defined.

Example empty_body_200_is_acknowledged :
  fst (Spec.perform Sample.client
         (Spec.UpdateDocument "my-index" "7" (JObject [("doc", JObject [])]))
         (Sample.always
            (Client.Done
               (Client.mkResponse 200 "OK" ""
                  (Client.NotJson "Expecting value: line 1 column 1 (char 0)")))))
  = Client.Returns (Spec.acknowledgement 200 "POST").
Proof. reflexivity. Qed.

(** ** Failure variants *)

(** C3 as stated fails: the HTTP failure, the TLS failure and the refused
    connection all raise an exception of the same class, so there are no
    three variant types to branch on; and a failure that the HTTP library
    reports with an exception of another library is not turned into that
    class at all. *)
Lemma C3_counterexample :
  (exists e_http e_tls e_conn : Client.client_exc,
     fst (Spec.perform Sample.client Spec.Info
            (Sample.always (Client.Done Sample.not_found)))
     = Client.Raises e_http
     /\ fst (Spec.perform Sample.client Spec.Info (Sample.always Sample.tls_failure))
        = Client.Raises e_tls
     /\ fst (Spec.perform Sample.client Spec.Info (Sample.always Sample.refused))
        = Client.Raises e_conn
     /\ Client.exc_type e_http = Client.exc_type e_tls
     /\ Client.exc_type e_tls = Client.exc_type e_conn)
  /\ fst (Spec.perform Sample.client_of_bad_host Spec.Info
            (Sample.always Sample.bad_host))
     = Client.Escapes
         (Py.mkPyException "LocationParseError"
            "Failed to parse: 'a..b', label empty or too long" false).
Proof.
  split; [do 3 eexists; repeat split; reflexivity | reflexivity].
Qed.

(** C3 (amended): an error status, a TLS verification failure and any
    other exception of [requests.exceptions] (time-out, DNS, refused
    connection) all raise the one class [SimpleEsClientError]; which of
    the three it was shows in the start of the message ([HTTP Error: ],
    [SSL Error: ] or [Connection failed: ]) and in the exception kept as
    the cause; a TLS verification failure gets the SSL message and not
    the connection one.  An exception of any other class, raised by the
    request or by decoding the body of an error response, is not
    converted and passes through. *)
Theorem C3_one_error_class_three_messages :
  forall (self : Client.SimpleEsClient) (op : Spec.operation) (w : Client.World),
    match Client.network w (Client.sent w) (Spec.request_of self op) with
    | Client.Done response =>
        Spec.is_error_status (Client.status_code response) = true ->
        match Spec.uncaught_decoding response with
        | Some other => fst (Spec.perform self op w) = Client.Escapes other
        | None =>
            exists e, fst (Spec.perform self op w) = Client.Raises e
                      /\ Client.exc_type e = Client.SimpleEsClientError
                      /\ Spec.failure_of_message (Client.message e)
                         = Some Spec.HttpFailure
                      /\ Client.cause e = Client.HTTPError response
        end
    | Client.Raised (Client.HTTPError response) =>
        match Spec.uncaught_decoding response with
        | Some other => fst (Spec.perform self op w) = Client.Escapes other
        | None =>
            exists e, fst (Spec.perform self op w) = Client.Raises e
                      /\ Client.exc_type e = Client.SimpleEsClientError
                      /\ Spec.failure_of_message (Client.message e)
                         = Some Spec.HttpFailure
                      /\ Client.cause e = Client.HTTPError response
        end
    | Client.Raised (Client.RequestsError cls detail) =>
        exists e, fst (Spec.perform self op w) = Client.Raises e
                  /\ Client.exc_type e = Client.SimpleEsClientError
                  /\ Spec.failure_of_message (Client.message e)
                     = Some (if Client.issubclass cls Client.SSLError
                             then Spec.TlsFailure else Spec.ConnectionFailure)
                  /\ Client.cause e = Client.RequestsError cls detail
    | Client.Raised (Client.Foreign other) =>
        fst (Spec.perform self op w) = Client.Escapes other
    end.
Proof.
  intros self op w.
  pose proof (perform_outcome self op w) as Hout.
  destruct (Client.network w (Client.sent w) (Spec.request_of self op))
    as [response | [response | cls detail | other]].
  - intros Hstatus. unfold Client.after_response in Hout.
    rewrite (raise_for_status_error response Hstatus) in Hout. cbn [Client.bind] in Hout.
    rewrite Hout. apply handle_http_error_cases.
  - rewrite Hout. apply handle_http_error_cases.
  - destruct (handle_requests_error cls detail) as [raised Hraised].
    rewrite Hraised in Hout. exists raised. split; [exact Hout|].
    destruct (handle_raises _ _ Hraised) as (Htype & Hmsg & Hcause).
    repeat split; assumption.
  - exact Hout.
Qed.

Lemma C3_witness :
  exists e,
    fst (Spec.perform Sample.secure_client Spec.Info (Sample.always Sample.tls_failure))
    = Client.Raises e
    /\ Client.exc_type e = Client.SimpleEsClientError
    /\ Spec.failure_of_message (Client.message e) = Some Spec.TlsFailure
    /\ Client.cause e
       = Client.RequestsError Client.SSLError
           "certificate verify failed: self-signed certificate".
Proof.
  exact (C3_one_error_class_three_messages Sample.secure_client Spec.Info
           (Sample.always Sample.tls_failure)).
Defined.

Example connect_timeout_is_connection_failure :
  fst (Spec.perform Sample.client Spec.Info (Sample.always Sample.timed_out))
  = Client.Raises
      (Client.mkExc Client.SimpleEsClientError "Connection failed: timed out"
         (Client.RequestsError Client.ConnectTimeout "timed out")).
Proof. reflexivity. Qed.

Example error_status_with_too_many_digits_passes_through :
  exists other,
    fst (Spec.perform Sample.client Spec.Info
           (Sample.always (Client.Done Sample.too_many_digits)))
    = Client.Escapes other
    /\ Py.exc_name other = "ValueError".
Proof. eexists. split; reflexivity. Qed.

(* ================================================================== *)
(** * Properties of the tree normalizer *)
(* ================================================================== *)

Section JsonInduction.

Variable P : Json.value -> Prop.

Hypothesis P_null : P JNull.
Hypothesis P_bool : forall b, P (JBool b).
Hypothesis P_int : forall n, P (JInt n).
Hypothesis P_float : forall repr, P (JFloat repr).
Hypothesis P_string : forall s, P (JString s).
Hypothesis P_object :
  forall items, Forall (fun kv => P (snd kv)) items -> P (JObject items).
Hypothesis P_array : forall elems, Forall P elems -> P (JArray elems).

(** Induction on a JSON value with the property known of every member of
    a container. *)
Lemma value_induction : forall v, P v.
Proof.
  fix rec 1.
  intros [ | b | n | repr | s | items | elems ];
    [ exact P_null | exact (P_bool b) | exact (P_int n) | exact (P_float repr)
    | exact (P_string s) | | ].
  - apply P_object.
    induction items as [|kv rest IHrest]; constructor; [apply rec | exact IHrest].
  - apply P_array.
    induction elems as [|x rest IHrest]; constructor; [apply rec | exact IHrest].
Qed.

End JsonInduction.

Section LoopLemmas.

Import Viewer TreeSpec.

(** A loop that appends one row per item appends the rows in order. *)
Lemma fold_appendRow {A : Type} (f : A -> TreeRow) (l : list A) (parent : list TreeRow) :
  fold_left (fun rows x => appendRow rows (f x)) l parent = (parent ++ map f l)%list.
Proof.
  revert parent.
  induction l as [|x l IH]; intros parent; cbn [fold_left map].
  - now rewrite app_nil_r.
  - rewrite IH. unfold appendRow. now rewrite <- app_assoc.
Qed.

(** The same with the running index of [enumerate]. *)
Lemma fold_enumerate (g : nat -> Json.value -> TreeRow) (l : list Json.value)
  (start : nat) (parent : list TreeRow) :
  fold_left (fun st v => (S (fst st), appendRow (snd st) (g (fst st) v))) l (start, parent)
  = (start + length l,
     (parent ++ map (fun iv => g (fst iv) (snd iv)) (enumerate start l))%list).
Proof.
  revert start parent.
  induction l as [|x l IH]; intros start parent; cbn [fold_left].
  - cbn. now rewrite Nat.add_0_r, app_nil_r.
  - cbn [fst snd]. rewrite IH. unfold appendRow, enumerate.
    cbn [length seq combine map fst snd].
    rewrite <- app_assoc. cbn [app]. f_equal. lia.
Qed.

Lemma enumerate_indices (start : nat) (l : list Json.value) :
  map fst (enumerate start l) = seq start (length l).
Proof.
  unfold enumerate. revert start.
  induction l as [|x l IH]; intros start; cbn; [reflexivity | now rewrite IH].
Qed.

Lemma enumerate_elements (start : nat) (l : list Json.value) :
  map snd (enumerate start l) = l.
Proof.
  unfold enumerate. revert start.
  induction l as [|x l IH]; intros start; cbn; [reflexivity | now rewrite IH].
Qed.

Lemma enumerate_length (start : nat) (l : list Json.value) :
  length (enumerate start l) = length l.
Proof. now rewrite <- (length_map fst), enumerate_indices, length_seq. Qed.

Lemma enumerate_cons (start : nat) (x : Json.value) (l : list Json.value) :
  enumerate start (x :: l) = (start, x) :: enumerate (S start) l.
Proof. reflexivity. Qed.

(** What [_populate_tree_model] does to a [dict] ... *)
Lemma populate_object (items : list (string * Json.value)) (parent : list TreeRow) :
  _populate_tree_model (JObject items) parent
  = (parent ++ map (fun kv => row_of (fst kv) (snd kv)) items)%list.
Proof.
  cbn [_populate_tree_model].
  exact (fold_appendRow (fun kv => row_of (fst kv) (snd kv)) items parent).
Qed.

(** ... to a [list] ... *)
Lemma populate_array (elems : list Json.value) (parent : list TreeRow) :
  _populate_tree_model (JArray elems) parent
  = (parent ++ map (fun iv => row_of (index_label (fst iv)) (snd iv))
                   (enumerate 0 elems))%list.
Proof.
  cbn [_populate_tree_model].
  change (snd (fold_left
                 (fun st v =>
                    (S (fst st), appendRow (snd st) (row_of (index_label (fst st)) v)))
                 elems (0, parent))
          = (parent ++ map (fun iv => row_of (index_label (fst iv)) (snd iv))
                           (enumerate 0 elems))%list).
  now rewrite (fold_enumerate (fun i v => row_of (index_label i) v)).
Qed.

(** ... and to anything else. *)
Lemma populate_scalar (data : Json.value) (parent : list TreeRow) :
  is_container data = false -> _populate_tree_model data parent = parent.
Proof. destruct data; cbn; intros H; [reflexivity .. | discriminate | discriminate]. Qed.

Lemma key_row_of (label : string) (v : Json.value) : key (row_of label v) = label.
Proof. unfold row_of. destruct (is_container v); reflexivity. Qed.

Lemma row_of_scalar (label : string) (v : Json.value) :
  is_container v = false -> row_of label v = Row label (Some (Json.str v)) [].
Proof. unfold row_of. now intros ->. Qed.

Lemma row_of_container (label : string) (v : Json.value) :
  is_container v = true -> row_of label v = Row label None (populate_tree v).
Proof. unfold row_of. now intros ->. Qed.

Lemma object_keys (items : list (string * Json.value)) :
  map key (map (fun kv => row_of (fst kv) (snd kv)) items) = map fst items.
Proof.
  rewrite map_map. apply map_ext. intros kv. apply key_row_of.
Qed.

Lemma array_keys (start : nat) (elems : list Json.value) :
  map key (map (fun iv => row_of (index_label (fst iv)) (snd iv)) (enumerate start elems))
  = map index_label (seq start (length elems)).
Proof.
  rewrite map_map.
  rewrite <- enumerate_indices, map_map.
  apply map_ext. intros iv. apply key_row_of.
Qed.

End LoopLemmas.

Section Labels.

Import Viewer.

Lemma str_nat_inj (a b : nat) : Py.str_nat a = Py.str_nat b -> a = b.
Proof.
  unfold Py.str_nat. intros H.
  apply DecimalNat.Unsigned.to_uint_inj.
  assert (E : Some (Nat.to_uint a) = Some (Nat.to_uint b))
    by now rewrite <- !NilEmpty.usu, H.
  now injection E.
Qed.

Lemma append_bracket_inj (x y : string) : x ++ "]" = y ++ "]" -> x = y.
Proof.
  revert y.
  induction x as [|a x IH]; intros [|b y] H; cbn in H.
  - reflexivity.
  - injection H as _ H. destruct y; discriminate.
  - injection H as _ H. destruct x; discriminate.
  - injection H as -> H. f_equal. now apply IH.
Qed.

(** Different indices get different labels. *)
Lemma index_label_inj (i j : nat) : index_label i = index_label j -> i = j.
Proof.
  unfold index_label. cbn [append]. intros H. injection H as H.
  now apply str_nat_inj, append_bracket_inj.
Qed.

Lemma index_labels_NoDup (start n : nat) : NoDup (map index_label (seq start n)).
Proof.
  apply Injective_map_NoDup; [|apply seq_NoDup].
  intros i j. apply index_label_inj.
Qed.

End Labels.

Section RowLemmas.

Import Viewer TreeSpec.

Lemma all_rows_unfold (r : TreeRow) :
  all_rows r = r :: flat_map all_rows (children r).
Proof. destruct r; reflexivity. Qed.

Lemma children_row_of (label : string) (v : Json.value) :
  children (row_of label v) = if is_container v then populate_tree v else [].
Proof. unfold row_of. destruct (is_container v); reflexivity. Qed.

Lemma value_row_of (label : string) (v : Json.value) :
  value (row_of label v) = if is_container v then None else Some (Json.str v).
Proof. unfold row_of. destruct (is_container v); reflexivity. Qed.

Lemma populate_tree_object (items : list (string * Json.value)) :
  populate_tree (JObject items) = map (fun kv => row_of (fst kv) (snd kv)) items.
Proof. unfold populate_tree. now rewrite populate_object. Qed.

Lemma populate_tree_array (elems : list Json.value) :
  populate_tree (JArray elems)
  = map (fun iv => row_of (index_label (fst iv)) (snd iv)) (enumerate 0 elems).
Proof. unfold populate_tree. now rewrite populate_array. Qed.

(** A container with no rows is an empty container. *)
Lemma populate_tree_nil (v : Json.value) :
  is_container v = true -> populate_tree v = [] -> v = JObject [] \/ v = JArray [].
Proof.
  destruct v as [ | | | | | items | elems ]; try discriminate; intros _ H.
  - rewrite populate_tree_object in H. apply map_eq_nil in H. subst. now left.
  - rewrite populate_tree_array in H. apply map_eq_nil in H.
    apply (f_equal (@length _)) in H. rewrite enumerate_length in H.
    destruct elems; [now right | discriminate].
Qed.

(** Every row of the tree, at any depth, is the row of some entry. *)
Lemma tree_rows_are_entries (data : Json.value) :
  forall r, In r (flat_map all_rows (populate_tree data)) ->
            exists label v, r = row_of label v.
Proof.
  induction data as [ | b | n | repr | s | items IH | elems IH ] using value_induction;
    intros r Hin; try contradiction.
  - rewrite populate_tree_object in Hin.
    apply in_flat_map in Hin as (row & Hrow & Hr).
    apply in_map_iff in Hrow as (kv & <- & Hkv).
    rewrite all_rows_unfold, children_row_of in Hr.
    destruct Hr as [<- | Hr]; [now eauto|].
    rewrite Forall_forall in IH.
    destruct (is_container (snd kv)); [|contradiction].
    exact (IH kv Hkv r Hr).
  - rewrite populate_tree_array in Hin.
    apply in_flat_map in Hin as (row & Hrow & Hr).
    apply in_map_iff in Hrow as (iv & <- & Hiv).
    rewrite all_rows_unfold, children_row_of in Hr.
    destruct Hr as [<- | Hr]; [now eauto|].
    rewrite Forall_forall in IH.
    destruct (is_container (snd iv)); [|contradiction].
    apply (IH (snd iv)); [|exact Hr].
    destruct iv as [i v]. unfold enumerate in Hiv.
    now apply in_combine_r in Hiv.
Qed.

(** The row of an entry: a value and no children for a scalar, no value
    for a container, and then no children only if the container is empty. *)
Lemma row_of_cases (label : string) (v : Json.value) :
  (has_value (row_of label v) = true /\ has_children (row_of label v) = false)
  \/ (has_value (row_of label v) = false /\ has_children (row_of label v) = true)
  \/ (has_value (row_of label v) = false /\ has_children (row_of label v) = false
      /\ (v = JObject [] \/ v = JArray [])).
Proof.
  unfold has_value, has_children.
  rewrite value_row_of, children_row_of.
  destruct (is_container v) eqn:Hc.
  - destruct (populate_tree v) eqn:Hrows.
    + right; right. repeat split. now apply populate_tree_nil.
    + right; left. now split.
  - left. now split.
Qed.

(** The label of the program is the index in decimal between brackets. *)
Lemma index_label_bracketed (i : nat) : index_label i = bracketed i.
Proof. reflexivity. Qed.

Lemma entries_scalar (v : Json.value) : is_container v = false -> entries v = [].
Proof. destruct v; cbn; intros H; [reflexivity .. | discriminate | discriminate]. Qed.

(** The row of an entry stands for it. *)
Lemma row_of_stands_for (label : string) (v : Json.value) :
  stands_for (row_of label v) (label, v).
Proof.
  unfold stands_for. cbn [fst snd]. split; [apply key_row_of|].
  rewrite value_row_of, children_row_of.
  destruct v as [ | b | n | repr | s | [|kv items] | [|x elems] ]; cbn [kind_of is_container];
    try (split; reflexivity).
  - split; [reflexivity|]. rewrite populate_tree_object. discriminate.
  - split; [reflexivity|]. rewrite populate_tree_array. discriminate.
Qed.

(** The rows under the row of an entry, given the rows of its value. *)
Lemma all_rows_row_of (label : string) (v : Json.value) :
  Forall2 stands_for (flat_map all_rows (populate_tree v)) (entries v) ->
  Forall2 stands_for (all_rows (row_of label v)) ((label, v) :: entries v).
Proof.
  intros IH. rewrite all_rows_unfold. constructor; [apply row_of_stands_for|].
  rewrite children_row_of.
  destruct (is_container v) eqn:Hc; [exact IH|].
  rewrite (entries_scalar v Hc). constructor.
Qed.

(** The rows of the tree, depth first, stand one by one for the entries
    of the value. *)
Lemma rows_stand_for_entries (data : Json.value) :
  Forall2 stands_for (flat_map all_rows (populate_tree data)) (entries data).
Proof.
  induction data as [ | b | n | repr | s | items IH | elems IH ] using value_induction;
    try constructor.
  - rewrite populate_tree_object. cbn [entries].
    induction IH as [|kv items Hkv _ IHitems]; cbn [map flat_map]; [constructor|].
    apply Forall2_app; [|exact IHitems].
    destruct kv as [k v]. cbn [fst snd] in *. now apply all_rows_row_of.
  - rewrite populate_tree_array. cbn [entries]. generalize 0 as start.
    induction IH as [|x elems Hx _ IHelems]; intros start; [constructor|].
    rewrite enumerate_cons. cbn [map flat_map fst snd].
    apply Forall2_app; [|apply IHelems].
    rewrite index_label_bracketed. now apply all_rows_row_of.
Qed.

End RowLemmas.

(** ** Scalars at the root *)

(** C5 as stated fails: a number at the root yields no row at all, not
    one unlabeled leaf row with its string form. *)
Lemma C5_counterexample :
  Viewer.populate_tree (JInt 7) = []
  /\ Viewer.populate_tree (JInt 7) <> [Viewer.Row "" (Some (Json.str (JInt 7))) []].
Proof. split; [reflexivity | discriminate]. Qed.

(** C5 (amended): for every scalar JSON value (null, boolean, number or
    string) given as the root input, normalization appends no row: the
    tree stays as it was, and a fresh tree stays empty. *)
Theorem C5_scalar_root_adds_no_row :
  forall (data : Json.value) (parent : list Viewer.TreeRow),
    is_container data = false ->
    Viewer._populate_tree_model data parent = parent
    /\ Viewer.populate_tree data = [].
Proof.
  intros data parent H. split; [|unfold Viewer.populate_tree]; now apply populate_scalar.
Qed.

Lemma C5_witness :
  Viewer._populate_tree_model (JString "green")
    [Viewer.Row "status" (Some "200") []]
  = [Viewer.Row "status" (Some "200") []]
  /\ Viewer.populate_tree (JString "green") = [].
Proof.
  apply (C5_scalar_root_adds_no_row (JString "green")
           [Viewer.Row "status" (Some "200") []]).
  reflexivity.
Defined.

(** ** Objects and arrays *)

(** C7: the rows made for an object are one per key, in the order of the
    object's items, after the rows the parent already had. *)
Theorem C7_object_rows_in_insertion_order :
  forall (items : list (string * Json.value)) (parent : list Viewer.TreeRow),
    map Viewer.key (Viewer._populate_tree_model (JObject items) parent)
    = (map Viewer.key parent ++ map fst items)%list
    /\ map Viewer.key (Viewer.populate_tree (JObject items)) = map fst items
    /\ length (Viewer.populate_tree (JObject items)) = length items.
Proof.
  intros items parent. repeat split.
  - now rewrite populate_object, map_app, object_keys.
  - now rewrite populate_tree_object, object_keys.
  - now rewrite populate_tree_object, length_map.
Qed.

Example object_keys_not_sorted :
  map Viewer.key (Viewer.populate_tree
                    (JObject [("zeta", JInt 1); ("alpha", JInt 2); ("mid", JNull)]))
  = ["zeta"; "alpha"; "mid"].
Proof. reflexivity. Qed.

(** C8: the rows made for an array of length n are n rows labelled [[0]]
    to [[n-1]] in this order, the index written in decimal between
    square brackets; the row of index i carries the string form of the
    i-th element if it is a scalar and its rows as children otherwise;
    the labels are pairwise different. *)
Theorem C8_array_rows_indexed_in_order :
  forall (elems : list Json.value),
    map Viewer.key (Viewer.populate_tree (JArray elems))
    = map (fun i => "[" ++ NilEmpty.string_of_uint (Nat.to_uint i) ++ "]")
          (seq 0 (length elems))
    /\ length (Viewer.populate_tree (JArray elems)) = length elems
    /\ Viewer.populate_tree (JArray elems)
       = map (fun iv =>
                Viewer.Row (TreeSpec.bracketed (fst iv))
                  (if is_container (snd iv) then None else Some (Json.str (snd iv)))
                  (if is_container (snd iv) then Viewer.populate_tree (snd iv) else []))
             (combine (seq 0 (length elems)) elems)
    /\ NoDup (map Viewer.key (Viewer.populate_tree (JArray elems))).
Proof.
  intros elems.
  assert (Hkeys : map Viewer.key (Viewer.populate_tree (JArray elems))
                  = map Viewer.index_label (seq 0 (length elems)))
    by now rewrite populate_tree_array, array_keys.
  repeat split.
  - exact Hkeys.
  - now rewrite populate_tree_array, length_map, enumerate_length.
  - rewrite populate_tree_array. apply map_ext. intros [i v]. cbn [fst snd].
    unfold TreeSpec.row_of. now destruct (is_container v).
  - rewrite Hkeys. apply index_labels_NoDup.
Qed.

Example array_labels_past_nine :
  map Viewer.key
      (Viewer.populate_tree (JArray (repeat JNull 12)))
  = ["[0]"; "[1]"; "[2]"; "[3]"; "[4]"; "[5]"; "[6]"; "[7]"; "[8]"; "[9]"; "[10]"; "[11]"].
Proof. reflexivity. Qed.

(** ** The row invariant *)

(** C9: the rows of the tree, at any depth, are one per key and index of
    the value, in depth-first order, and the row of an entry has a value
    and no children when the entry holds a scalar, children and no value
    when it holds an object or array with members, and neither when it
    holds an empty object or array; so no row has both a value and
    children, and a row with neither is the row of an empty container. *)
Theorem C9_value_or_children_never_both :
  forall (data : Json.value),
    Forall2 TreeSpec.stands_for
      (flat_map TreeSpec.all_rows (Viewer.populate_tree data))
      (TreeSpec.entries data)
    /\ Forall (fun r => Viewer.value r = None \/ Viewer.children r = [])
         (flat_map TreeSpec.all_rows (Viewer.populate_tree data)).
Proof.
  intros data.
  pose proof (rows_stand_for_entries data) as Hrows.
  split; [exact Hrows|].
  induction Hrows as [|r entry rows rest [_ Hr] _ IH]; constructor; [|exact IH].
  destruct (TreeSpec.kind_of (snd entry)); destruct Hr as [Hvalue Hkids]; auto.
Qed.

Example document_rows_by_kind :
  map (fun r => (Viewer.key r, Viewer.value r, length (Viewer.children r)))
      (flat_map TreeSpec.all_rows (Viewer.populate_tree Sample.document))
  = [("name", Some "disk-7", 0); ("size", Some "512", 0); ("load", Some "0.75", 0);
     ("ok", Some "True", 0); ("owner", Some "None", 0);
     ("tags", None, 2); ("[0]", Some "a", 0); ("[1]", Some "", 0);
     ("meta", None, 0); ("history", None, 0)].
Proof. reflexivity. Qed.

Example document_entries_by_kind :
  map (fun entry => (fst entry, TreeSpec.kind_of (snd entry)))
      (TreeSpec.entries Sample.document)
  = [("name", TreeSpec.Scalar); ("size", TreeSpec.Scalar); ("load", TreeSpec.Scalar);
     ("ok", TreeSpec.Scalar); ("owner", TreeSpec.Scalar);
     ("tags", TreeSpec.Filled); ("[0]", TreeSpec.Scalar); ("[1]", TreeSpec.Scalar);
     ("meta", TreeSpec.Empty); ("history", TreeSpec.Empty)].
Proof. reflexivity. Qed.

(** ** What the tree keeps of the value *)

Section Fidelity.

Import Viewer TreeSpec.

Lemma labels_eqb_refl (l : list string) : labels_eqb l l = true.
Proof.
  induction l as [|x l IH]; cbn; [reflexivity|].
  now rewrite String.eqb_refl, IH.
Qed.

Lemma is_index_labels_seq (n : nat) :
  is_index_labels (map index_label (seq 0 (S n))) = true.
Proof.
  unfold is_index_labels.
  change (map index_label (seq 0 (S n)))
    with (index_label 0 :: map index_label (seq 1 n)) at 1.
  rewrite length_map, length_seq. apply labels_eqb_refl.
Qed.

Lemma shape_of_scalar (v : Json.value) :
  is_container v = false -> shape_of v = SValue (Json.str v).
Proof. destruct v; cbn; intros H; try reflexivity; discriminate. Qed.

Lemma labels_of_scalar (v : Json.value) : is_container v = false -> labels_of v = [].
Proof. destruct v; cbn; intros H; try reflexivity; discriminate. Qed.

Lemma scalars_of_scalar (v : Json.value) :
  is_container v = false -> scalars_of v = [Json.str v].
Proof. destruct v; cbn; intros H; try reflexivity; discriminate. Qed.

Lemma rebuild_row_container (label : string) (rows : list TreeRow) :
  rebuild_row (Row label None rows) = rebuild rows.
Proof. reflexivity. Qed.

Lemma row_keys_unfold (r : TreeRow) :
  row_keys r = key r :: flat_map row_keys (children r).
Proof. destruct r; reflexivity. Qed.

Lemma row_values_unfold (r : TreeRow) :
  row_values r
  = (match value r with Some s => [s] | None => [] end
     ++ flat_map row_values (children r))%list.
Proof. destruct r; reflexivity. Qed.

(** Reading back the row of an entry, given that its rows read back. *)
Lemma rebuild_row_of (label : string) (v : Json.value) :
  (is_container v = true -> rebuild (populate_tree v) = shape_of v) ->
  rebuild_row (row_of label v) = shape_of v.
Proof.
  intros H. destruct (is_container v) eqn:Hc.
  - rewrite (row_of_container label v Hc), rebuild_row_container. now apply H.
  - rewrite (row_of_scalar label v Hc), (shape_of_scalar v Hc). reflexivity.
Qed.

Lemma rebuild_populate_tree (v : Json.value) :
  unambiguous v = true -> is_container v = true ->
  rebuild (populate_tree v) = shape_of v.
Proof.
  induction v as [ | b | n | repr | s | items IH | elems IH ] using value_induction;
    intros Hun Hc; try discriminate.
  - cbn [unambiguous] in Hun. apply andb_true_iff in Hun as [Hkeys Hitems].
    apply negb_true_iff in Hkeys.
    rewrite forallb_forall in Hitems. rewrite Forall_forall in IH.
    rewrite populate_tree_object. unfold rebuild.
    rewrite object_keys, Hkeys, map_map. cbn [shape_of]. f_equal.
    apply map_ext_in. intros kv Hin. rewrite key_row_of. f_equal.
    apply rebuild_row_of. intros Hckv. now apply IH; [ | apply Hitems | ].
  - cbn [unambiguous] in Hun.
    destruct elems as [|x rest] eqn:Helems; [discriminate|]. rewrite <- Helems in *.
    assert (Hlen : length elems = S (length rest)) by now rewrite Helems.
    rewrite forallb_forall in Hun. rewrite Forall_forall in IH.
    rewrite populate_tree_array. unfold rebuild.
    rewrite array_keys, Hlen, is_index_labels_seq, map_map. cbn [shape_of]. f_equal.
    rewrite <- (enumerate_elements 0 elems) at 2. rewrite map_map.
    apply map_ext_in. intros [i v] Hin. cbn [fst snd].
    assert (Hv : In v elems) by (unfold enumerate in Hin; now apply in_combine_r in Hin).
    apply rebuild_row_of. intros Hcv. now apply IH; [ | apply Hun | ].
Qed.

Lemma row_keys_row_of (label : string) (v : Json.value) :
  flat_map row_keys (populate_tree v) = labels_of v ->
  row_keys (row_of label v) = label :: labels_of v.
Proof.
  intros H. rewrite row_keys_unfold, key_row_of, children_row_of. f_equal.
  destruct (is_container v) eqn:Hc; [exact H|].
  now rewrite (labels_of_scalar v Hc).
Qed.

Lemma labels_of_array (elems : list Json.value) :
  forall start,
    (fix walk (index : nat) (l : list Json.value) : list string :=
       match l with
       | [] => []
       | x :: rest => ((index_label index :: labels_of x) ++ walk (S index) rest)%list
       end) start elems
    = flat_map (fun iv => index_label (fst iv) :: labels_of (snd iv))
               (enumerate start elems).
Proof.
  induction elems as [|x rest IH]; intros start; [reflexivity|].
  rewrite enumerate_cons. cbn [flat_map fst snd]. now rewrite IH.
Qed.

Lemma flat_map_map {A B C : Type} (f : A -> B) (g : B -> list C) (l : list A) :
  flat_map g (map f l) = flat_map (fun a => g (f a)) l.
Proof. induction l as [|a l IH]; cbn; [reflexivity | now rewrite IH]. Qed.

Lemma flat_map_ext_in {A B : Type} (f g : A -> list B) (l : list A) :
  (forall a, In a l -> f a = g a) -> flat_map f l = flat_map g l.
Proof.
  induction l as [|a l IH]; intros H; cbn; [reflexivity|].
  rewrite (H a (or_introl eq_refl)), IH; [reflexivity|].
  intros b Hb. apply H. now right.
Qed.

(** Every key and every index label is the key of a row, in order. *)
Lemma row_keys_populate_tree (v : Json.value) :
  flat_map row_keys (populate_tree v) = labels_of v.
Proof.
  induction v as [ | b | n | repr | s | items IH | elems IH ] using value_induction;
    try reflexivity.
  - rewrite Forall_forall in IH.
    rewrite populate_tree_object, flat_map_map. cbn [labels_of].
    apply flat_map_ext_in. intros kv Hin. now apply row_keys_row_of, IH.
  - rewrite Forall_forall in IH.
    rewrite populate_tree_array, flat_map_map. cbn [labels_of].
    rewrite labels_of_array.
    apply flat_map_ext_in. intros [i x] Hin. cbn [fst snd].
    apply row_keys_row_of, IH.
    unfold enumerate in Hin. now apply in_combine_r in Hin.
Qed.

Lemma row_values_row_of (label : string) (v : Json.value) :
  (is_container v = true -> flat_map row_values (populate_tree v) = scalars_of v) ->
  row_values (row_of label v) = scalars_of v.
Proof.
  intros H. rewrite row_values_unfold, value_row_of, children_row_of.
  destruct (is_container v) eqn:Hc.
  - now apply H.
  - now rewrite (scalars_of_scalar v Hc).
Qed.

(** Every scalar inside a container is the value of a row, in order. *)
Lemma row_values_populate_tree (v : Json.value) :
  is_container v = true -> flat_map row_values (populate_tree v) = scalars_of v.
Proof.
  induction v as [ | b | n | repr | s | items IH | elems IH ] using value_induction;
    intros Hc; try discriminate.
  - rewrite Forall_forall in IH.
    rewrite populate_tree_object, flat_map_map. cbn [scalars_of].
    apply flat_map_ext_in. intros kv Hin. now apply row_values_row_of, IH.
  - rewrite Forall_forall in IH.
    rewrite populate_tree_array, flat_map_map. cbn [scalars_of].
    rewrite <- (enumerate_elements 0 elems) at 2. rewrite flat_map_map.
    apply flat_map_ext_in. intros [i x] Hin. cbn [fst snd].
    apply row_values_row_of, IH.
    unfold enumerate in Hin. now apply in_combine_r in Hin.
Qed.

End Fidelity.

(** C6 as stated fails: an array and the object keyed by its index labels
    give the same tree, and so do an empty object and an empty array, so
    the shape cannot be read back from the tree; and a scalar at the root
    is not in the tree at all. *)
Lemma C6_counterexample :
  (Viewer.populate_tree (JArray [JInt 1])
   = Viewer.populate_tree (JObject [("[0]", JInt 1)])
   /\ TreeSpec.shape_of (JArray [JInt 1])
      <> TreeSpec.shape_of (JObject [("[0]", JInt 1)]))
  /\ (Viewer.populate_tree (JObject [("a", JObject [])])
      = Viewer.populate_tree (JObject [("a", JArray [])])
      /\ TreeSpec.shape_of (JObject [("a", JObject [])])
         <> TreeSpec.shape_of (JObject [("a", JArray [])]))
  /\ (TreeSpec.scalars_of (JString "green") = ["green"]
      /\ flat_map TreeSpec.row_values (Viewer.populate_tree (JString "green")) = []).
Proof.
  repeat split; try reflexivity; discriminate.
Qed.

(** C6 (amended): for every JSON object or array v, every key, every
    array index and every scalar of v is in the tree, in depth-first
    order, and nothing is left out; when v holds no empty array and no
    object whose keys are the index labels [[0]] to [[n-1]], the shape of
    v (keys, order, nesting, string forms of the scalars) is read back
    from the tree exactly. *)
Theorem C6_tree_keeps_labels_scalars_and_shape :
  forall v : Json.value,
    is_container v = true ->
    flat_map TreeSpec.row_keys (Viewer.populate_tree v) = TreeSpec.labels_of v
    /\ flat_map TreeSpec.row_values (Viewer.populate_tree v) = TreeSpec.scalars_of v
    /\ (TreeSpec.unambiguous v = true ->
        TreeSpec.rebuild (Viewer.populate_tree v) = TreeSpec.shape_of v).
Proof.
  intros v Hc. repeat split.
  - apply row_keys_populate_tree.
  - now apply row_values_populate_tree.
  - intros Hun. now apply rebuild_populate_tree.
Qed.

Lemma C6_witness :
  flat_map TreeSpec.row_keys (Viewer.populate_tree Sample.search_response)
  = ["hits"; "hits"; "[0]"; "_id"; "[1]"; "_id"]
  /\ flat_map TreeSpec.row_values (Viewer.populate_tree Sample.search_response)
     = ["a"; "b"]
  /\ TreeSpec.rebuild (Viewer.populate_tree Sample.search_response)
     = TreeSpec.shape_of Sample.search_response.
Proof.
  destruct (C6_tree_keeps_labels_scalars_and_shape Sample.search_response eq_refl)
    as (Hkeys & Hvalues & Hshape).
  split; [exact Hkeys | split; [exact Hvalues | exact (Hshape eq_refl)]].
Defined.

Example search_response_tree :
  Viewer.populate_tree Sample.search_response
  = [Viewer.Row "hits" None
       [Viewer.Row "hits" None
          [Viewer.Row "[0]" None [Viewer.Row "_id" (Some "a") []];
           Viewer.Row "[1]" None [Viewer.Row "_id" (Some "b") []]]]].
Proof. reflexivity. Qed.

Example search_response_reads_back :
  TreeSpec.unambiguous Sample.search_response = true
  /\ TreeSpec.rebuild (Viewer.populate_tree Sample.search_response)
     = TreeSpec.shape_of Sample.search_response.
Proof. split; reflexivity. Qed.

Example document_scalars :
  flat_map TreeSpec.row_values (Viewer.populate_tree Sample.document)
  = ["disk-7"; "512"; "0.75"; "True"; "None"; "a"; ""].
Proof. reflexivity. Qed.

(* ================================================================== *)
(** * More about the document client *)
(* ================================================================== *)

Section ClientMore.

Import Client Spec.

Lemma endswith_slash_app (b : string) : Py.endswith_slash (b ++ "/") = true.
Proof.
  induction b as [|c b IH]; [reflexivity|].
  cbn [append]. destruct b as [|c' b]; [reflexivity | exact IH].
Qed.

Lemma drop_last_app (b : string) : Py.drop_last (b ++ "/") = b.
Proof.
  induction b as [|c b IH]; [reflexivity|].
  cbn [append]. destruct b as [|c' b]; [reflexivity|].
  cbn [append] in *. cbn [Py.drop_last]. cbn [Py.drop_last] in IH. now rewrite IH.
Qed.

Lemma endswith_slash_append (a b : string) :
  b <> "" -> Py.endswith_slash (a ++ b) = Py.endswith_slash b.
Proof.
  intros Hb. induction a as [|c a IH]; [reflexivity|].
  cbn [append]. destruct (a ++ b) eqn:E.
  - destruct a; [cbn in E; contradiction | discriminate].
  - exact IH.
Qed.

Lemma startswith_app (p s : string) : Py.startswith p (p ++ s) = true.
Proof.
  induction p as [|c p IH]; [reflexivity|].
  cbn. now rewrite Ascii.eqb_refl, IH.
Qed.

Lemma after_response_ok (method : string) (response : Response) (v : Json.value) :
  is_error_status (status_code response) = false ->
  status_code response <> 204%Z ->
  content response <> "" ->
  after_response method response = response_json response.
Proof.
  intros Hstatus H204 Hbody. unfold after_response.
  rewrite (raise_for_status_pass response Hstatus). cbn [bind].
  apply Z.eqb_neq in H204. rewrite H204.
  destruct (content response); [contradiction | reflexivity].
Qed.

End ClientMore.

(** X1: a base URL given with one trailing slash makes the same client
    as the URL without it, and the client keeps the URL without the
    slash. *)
Theorem X1_trailing_slash_of_base_url_dropped :
  forall (b : string) (auth : option (string * string)) (verify : bool),
    Py.endswith_slash b = false ->
    Client.__init__ (b ++ "/") auth verify = Client.__init__ b auth verify
    /\ Client.base_url (Client.__init__ (b ++ "/") auth verify) = b.
Proof.
  intros b auth verify Hb. unfold Client.__init__.
  rewrite endswith_slash_app, drop_last_app, Hb. split; reflexivity.
Qed.

Lemma X1_witness :
  Client.__init__ ("http://localhost:9200" ++ "/") None true
  = Client.__init__ "http://localhost:9200" None true
  /\ Client.base_url (Client.__init__ ("http://localhost:9200" ++ "/") None true)
     = "http://localhost:9200".
Proof.
  apply (X1_trailing_slash_of_base_url_dropped "http://localhost:9200" None true).
  reflexivity.
Defined.

(** X2: every operation sends exactly one request and leaves the network
    as it is; the request carries the client's credentials, headers and
    certificate setting, a timeout of 10 seconds, and a URL that starts
    with the base URL and a slash. *)
Theorem X2_one_request_with_the_client_settings :
  forall (self : Client.SimpleEsClient) (op : Spec.operation) (w : Client.World),
  exists req : Client.Request,
    Client.sent (snd (Spec.perform self op w)) = (Client.sent w ++ [req])%list
    /\ Client.network (snd (Spec.perform self op w)) = Client.network w
    /\ Client.req_auth req = Client.auth self
    /\ Client.req_headers req = Client.headers self
    /\ Client.req_timeout req = 10%Z
    /\ Client.req_verify req = Client.verify_ssl self
    /\ Py.startswith (Client.base_url self ++ "/") (Client.req_url req) = true.
Proof.
  intros self op w. exists (Spec.request_of self op).
  split; [apply perform_sent|].
  split; [rewrite perform_make_request; reflexivity|].
  destruct op as [ | | | index document [[|c id]|] | | ];
    cbn [Spec.request_of Spec.request Client.req_auth Client.req_headers
         Client.req_timeout Client.req_verify Client.req_url];
    repeat split; rewrite <- str_append_assoc; apply startswith_app.
Qed.

(** X3: a response whose status is not from 400 to 599 and not 204, with
    a body that decodes as JSON, makes the operation return the decoded
    value as it is. *)
Theorem X3_decoded_body_is_returned :
  forall (self : Client.SimpleEsClient) (op : Spec.operation) (w : Client.World)
         (response : Client.Response) (v : Json.value),
    Client.network w (Client.sent w) (Spec.request_of self op) = Client.Done response ->
    Spec.is_error_status (Client.status_code response) = false ->
    Client.status_code response <> 204%Z ->
    Client.content response <> "" ->
    Client.json response = Client.Decoded v ->
    fst (Spec.perform self op w) = Client.Returns v.
Proof.
  intros self op w response v Hnet Hstatus H204 Hbody Hjson.
  rewrite perform_outcome, Hnet, (after_response_ok _ response v Hstatus H204 Hbody).
  unfold Client.response_json. now rewrite Hjson.
Qed.

Lemma X3_witness :
  fst (Spec.perform Sample.client (Spec.GetDocument "my-index" "42")
         (Sample.always (Client.Done Sample.found)))
  = Client.Returns
      (JObject [("_id", JString "42");
                ("_source", JObject [("name", JString "disk-7")])]).
Proof.
  apply (X3_decoded_body_is_returned Sample.client (Spec.GetDocument "my-index" "42")
           (Sample.always (Client.Done Sample.found)) Sample.found);
    [reflexivity | reflexivity | discriminate | discriminate | reflexivity].
Defined.

(** X4: when such a response has a body that does not decode as JSON, the
    operation raises [SimpleEsClientError] with the message
    [Connection failed: ] followed by the decoder's message: a garbled
    answer of a reachable server is reported as a failed connection. *)
Theorem X4_undecodable_body_is_a_connection_failure :
  forall (self : Client.SimpleEsClient) (op : Spec.operation) (w : Client.World)
         (response : Client.Response) (msg : string),
    Client.network w (Client.sent w) (Spec.request_of self op) = Client.Done response ->
    Spec.is_error_status (Client.status_code response) = false ->
    Client.status_code response <> 204%Z ->
    Client.content response <> "" ->
    Client.json response = Client.NotJson msg ->
    fst (Spec.perform self op w)
    = Client.Raises
        (Client.mkExc Client.SimpleEsClientError ("Connection failed: " ++ msg)
           (Client.RequestsError Client.JSONDecodeError msg)).
Proof.
  intros self op w response msg Hnet Hstatus H204 Hbody Hjson.
  rewrite perform_outcome, Hnet, (after_response_ok _ response JNull Hstatus H204 Hbody).
  unfold Client.response_json. now rewrite Hjson.
Qed.

Lemma X4_witness :
  fst (Spec.perform Sample.client Spec.Info (Sample.always (Client.Done Sample.garbled)))
  = Client.Raises
      (Client.mkExc Client.SimpleEsClientError
         "Connection failed: Expecting value: line 1 column 1 (char 0)"
         (Client.RequestsError Client.JSONDecodeError
            "Expecting value: line 1 column 1 (char 0)")).
Proof.
  apply (X4_undecodable_body_is_a_connection_failure Sample.client Spec.Info
           (Sample.always (Client.Done Sample.garbled)) Sample.garbled);
    [reflexivity | reflexivity | discriminate | discriminate | reflexivity].
Defined.

(** X5: which way an operation ends.  It raises [SimpleEsClientError]
    when the HTTP library raised one of its own exceptions, when the
    status is from 400 to 599, and when the status is not 204 and the
    body is not empty and decoding it raises a JSON decode error; it
    returns a value in every other case; except that an exception of
    another class, raised by the request or by the decoding of a body
    the program decodes, ends the operation as it is (for the body of
    an error response: unless it is a JSON decode error, which the
    inner clause catches). *)
Theorem X5_when_an_operation_raises :
  forall (self : Client.SimpleEsClient) (op : Spec.operation) (w : Client.World),
    match Client.network w (Client.sent w) (Spec.request_of self op) with
    | Client.Raised (Client.Foreign other) =>
        fst (Spec.perform self op w) = Client.Escapes other
    | Client.Raised (Client.RequestsError _ _) =>
        exists e, fst (Spec.perform self op w) = Client.Raises e
    | Client.Raised (Client.HTTPError response) =>
        match Spec.uncaught_decoding response with
        | Some other => fst (Spec.perform self op w) = Client.Escapes other
        | None => exists e, fst (Spec.perform self op w) = Client.Raises e
        end
    | Client.Done response =>
        if Spec.is_error_status (Client.status_code response)
        then match Spec.uncaught_decoding response with
             | Some other => fst (Spec.perform self op w) = Client.Escapes other
             | None => exists e, fst (Spec.perform self op w) = Client.Raises e
             end
        else if (Client.status_code response =? 204)%Z
        then exists v, fst (Spec.perform self op w) = Client.Returns v
        else if String.eqb (Client.content response) ""
        then exists v, fst (Spec.perform self op w) = Client.Returns v
        else match Client.json response with
             | Client.Decoded v => fst (Spec.perform self op w) = Client.Returns v
             | Client.NotJson _ => exists e, fst (Spec.perform self op w) = Client.Raises e
             | Client.DecodeFails other =>
                 fst (Spec.perform self op w) = Client.Escapes other
             end
    end.
Proof.
  intros self op w. rewrite perform_outcome.
  assert (Hhttp : forall response,
             match Spec.uncaught_decoding response with
             | Some other => Client.handle (Client.HTTPError response) = Client.Escapes other
             | None => exists e, Client.handle (Client.HTTPError response) = Client.Raises e
             end).
  { intros response. pose proof (handle_http_error_cases response) as H.
    destruct (Spec.uncaught_decoding response); [exact H|].
    destruct H as (raised & H & _). eauto. }
  destruct (Client.network w (Client.sent w) (Spec.request_of self op))
    as [response | [response | cls detail | other]].
  - unfold Client.after_response.
    destruct (Spec.is_error_status (Client.status_code response)) eqn:Hstatus.
    + rewrite (raise_for_status_error response Hstatus). cbn [Client.bind].
      apply Hhttp.
    + rewrite (raise_for_status_pass response Hstatus). cbn [Client.bind].
      destruct (Client.status_code response =? 204)%Z; cbn [orb]; [eauto|].
      destruct (Client.content response) eqn:Hbody; cbn [Py.truthy negb String.eqb];
        [eauto|].
      unfold Client.response_json.
      destruct (Client.json response); cbn [Client.handle]; eauto.
      destruct (Client.issubclass _ _); eauto.
  - apply Hhttp.
  - apply handle_requests_error.
  - reflexivity.
Qed.

Example foreign_exception_of_the_request_passes_through :
  fst (Spec.perform Sample.client_of_bad_host Spec.Info (Sample.always Sample.bad_host))
  = Client.Escapes
      (Py.mkPyException "LocationParseError"
         "Failed to parse: 'a..b', label empty or too long" false).
Proof. reflexivity. Qed.

(* ================================================================== *)
(** * More about the tree *)
(* ================================================================== *)

(** X6: the rows already under the parent are kept as they are and the
    rows for the data come after them: filling a parent is appending what
    a fresh tree would hold. *)
Theorem X6_rows_are_appended_to_the_parent :
  forall (data : Json.value) (parent : list Viewer.TreeRow),
    Viewer._populate_tree_model data parent
    = (parent ++ Viewer.populate_tree data)%list.
Proof.
  intros data parent. unfold Viewer.populate_tree.
  destruct data as [ | b | n | repr | s | items | elems ];
    try (cbn; now rewrite app_nil_r).
  - now rewrite !populate_object.
  - now rewrite !populate_array.
Qed.

(* ================================================================== *)
(** * The clipboard *)
(* ================================================================== *)

(** X7: copying the row of an entry with a non-empty label puts
    [label: value] on the clipboard when the entry is a scalar whose
    string form is not empty, and the label alone when the entry is a
    container or a scalar with an empty string form; only the first
    selected row counts. *)
Theorem X7_copy_of_an_entry_row :
  forall (label : string) (v : Json.value) (others : list Viewer.TreeRow)
         (ui : Gui.Window),
    label <> "" ->
    Gui.clipboard
      (Gui.copy_selection_to_clipboard (TreeSpec.row_of label v :: others) ui)
    = Some (if is_container v || negb (Py.truthy (Json.str v))
            then label
            else label ++ ": " ++ Json.str v).
Proof.
  intros label v others ui Hlabel.
  destruct label as [|c label]; [contradiction|].
  unfold Gui.copy_selection_to_clipboard.
  rewrite key_row_of, value_row_of.
  destruct (is_container v); cbn [orb Py.truthy_opt]; [reflexivity|].
  destruct (Json.str v) as [|c' text]; reflexivity.
Qed.

Lemma X7_witness :
  Gui.clipboard
    (Gui.copy_selection_to_clipboard
       (TreeSpec.row_of "owner" JNull :: [TreeSpec.row_of "size" (JInt 512)])
       Sample.window)
  = Some "owner: None".
Proof.
  apply (X7_copy_of_an_entry_row "owner" JNull [TreeSpec.row_of "size" (JInt 512)]
           Sample.window).
  discriminate.
Defined.

Example copy_of_empty_string_is_the_key_alone :
  Gui.clipboard (Gui.copy_selection_to_clipboard
                   [TreeSpec.row_of "note" (JString "")] Sample.window)
  = Gui.clipboard (Gui.copy_selection_to_clipboard
                     [TreeSpec.row_of "note" (JObject [("a", JInt 1)])] Sample.window).
Proof. reflexivity. Qed.

(* ================================================================== *)
(** * Building the client from the window *)
(* ================================================================== *)

Section Strip.

Import GuiSpec.

Lemma lstrip_empty (s : string) : Py.lstrip s = "" <-> all_space s = true.
Proof.
  induction s as [|c s IH]; cbn; [tauto|].
  destruct (Py.isspace c); cbn; [exact IH | split; discriminate].
Qed.

Lemma all_space_lstrip (s : string) : all_space (Py.lstrip s) = all_space s.
Proof.
  induction s as [|c s IH]; cbn; [reflexivity|].
  destruct (Py.isspace c) eqn:E; cbn; [exact IH | now rewrite E].
Qed.

Lemma rstrip_empty (s : string) : Py.rstrip s = "" <-> all_space s = true.
Proof.
  induction s as [|c s IH]; cbn; [tauto|].
  destruct (Py.rstrip s) eqn:E.
  - assert (Hs : all_space s = true) by now apply IH.
    rewrite Hs, andb_true_r. destruct (Py.isspace c); split; congruence.
  - assert (Hs : all_space s = false).
    { destruct (all_space s) eqn:F; [|reflexivity].
      destruct IH as [_ IH]. now specialize (IH eq_refl). }
    rewrite Hs, andb_false_r. split; discriminate.
Qed.

(** Nothing is left of a text after [strip()] exactly when all of it is
    white space. *)
Lemma strip_empty (s : string) : Py.strip s = "" <-> all_space s = true.
Proof.
  unfold Py.strip. now rewrite rstrip_empty, all_space_lstrip.
Qed.

Lemma blank_all_space (s : string) : blank s = all_space s.
Proof.
  unfold blank.
  destruct (all_space s) eqn:E.
  - apply strip_empty in E. now rewrite E.
  - destruct (Py.strip s) eqn:F; [|reflexivity].
    apply strip_empty in F. congruence.
Qed.

End Strip.

Section GetClient.

Import Client Gui GuiSpec.

Lemma get_client_cases (ui : Window) :
  (blank (host_input ui) || blank (port_input ui) = true
   /\ _get_client ui
      = (None, show (warning "Input Error" "Host and Port cannot be empty.") ui))
  \/ (blank (host_input ui) || blank (port_input ui) = false
      /\ _get_client ui
         = (Some (__init__
                    ((if https_checkbox ui then "https" else "http")
                     ++ "://" ++ Py.strip (host_input ui)
                     ++ ":" ++ Py.strip (port_input ui))
                    (if auth_checkbox ui
                     then Some (user_input ui, pass_input ui) else None)
                    (verify_ssl_checkbox ui)),
            ui)).
Proof.
  unfold _get_client, blank.
  destruct (negb (Py.truthy (Py.strip (host_input ui)))
            || negb (Py.truthy (Py.strip (port_input ui)))); [left | right];
    split; reflexivity.
Qed.

End GetClient.

(** X8: no client is built exactly when the host box or the port box
    holds nothing but white space; then the warning is shown and nothing
    else changes, and otherwise the window is left as it is. *)
Theorem X8_no_client_without_host_and_port :
  forall ui : Gui.Window,
    (fst (Gui._get_client ui) = None
     <-> GuiSpec.all_space (Gui.host_input ui)
         || GuiSpec.all_space (Gui.port_input ui) = true)
    /\ snd (Gui._get_client ui)
       = match fst (Gui._get_client ui) with
         | None =>
             Gui.show (Gui.warning "Input Error" "Host and Port cannot be empty.") ui
         | Some _ => ui
         end.
Proof.
  intros ui. rewrite <- !blank_all_space.
  destruct (get_client_cases ui) as [[Hb G] | [Hb G]]; rewrite G, Hb; cbn [fst snd].
  - split; [tauto | reflexivity].
  - split; [split; discriminate | reflexivity].
Qed.

(** X9: a client that is built has the base URL
    [scheme://host:port] made of the stripped host and port (when the
    port does not end in a slash), [https] exactly when the box is
    ticked; it verifies certificates exactly when that box is ticked,
    and carries the user name and password as typed exactly when
    authentication is ticked, even if both are empty. *)
Theorem X9_client_built_from_the_window :
  forall (ui : Gui.Window) (client : Client.SimpleEsClient),
    fst (Gui._get_client ui) = Some client ->
    Py.endswith_slash (Py.strip (Gui.port_input ui)) = false ->
    Client.base_url client
    = (if Gui.https_checkbox ui then "https" else "http")
      ++ "://" ++ Py.strip (Gui.host_input ui) ++ ":" ++ Py.strip (Gui.port_input ui)
    /\ Client.verify_ssl client = Gui.verify_ssl_checkbox ui
    /\ Client.auth client
       = (if Gui.auth_checkbox ui
          then Some (Gui.user_input ui, Gui.pass_input ui) else None)
    /\ Client.headers client = [("Content-Type", "application/json")].
Proof.
  intros ui client Hclient Hport.
  destruct (get_client_cases ui) as [[Hb G] | [Hb G]]; rewrite G in Hclient;
    cbn [fst] in Hclient; [discriminate|].
  apply orb_false_iff in Hb as [_ Hb]. unfold GuiSpec.blank in Hb.
  apply negb_false_iff in Hb.
  assert (Hne : Py.strip (Gui.port_input ui) <> "")
    by (intros E; rewrite E in Hb; discriminate).
  assert (Hslash :
    Py.endswith_slash
      ((if Gui.https_checkbox ui then "https" else "http")
       ++ "://" ++ Py.strip (Gui.host_input ui) ++ ":" ++ Py.strip (Gui.port_input ui))
    = false).
  { rewrite <- !str_append_assoc. now rewrite (endswith_slash_append _ _ Hne). }
  assert (Heq : client
                = Client.__init__
                    ((if Gui.https_checkbox ui then "https" else "http")
                     ++ "://" ++ Py.strip (Gui.host_input ui)
                     ++ ":" ++ Py.strip (Gui.port_input ui))
                    (if Gui.auth_checkbox ui
                     then Some (Gui.user_input ui, Gui.pass_input ui) else None)
                    (Gui.verify_ssl_checkbox ui)) by congruence.
  rewrite Heq. unfold Client.__init__. rewrite Hslash.
  repeat split; reflexivity.
Qed.

Lemma X9_witness :
  Client.base_url (Client.__init__ "https://es.example.org:9243"
                     (Some ("elastic", "changeme")) true)
  = "https" ++ "://" ++ "es.example.org" ++ ":" ++ "9243"
  /\ Client.verify_ssl (Client.__init__ "https://es.example.org:9243"
                          (Some ("elastic", "changeme")) true) = true
  /\ Client.auth (Client.__init__ "https://es.example.org:9243"
                    (Some ("elastic", "changeme")) true)
     = Some ("elastic", "changeme")
  /\ Client.headers (Client.__init__ "https://es.example.org:9243"
                       (Some ("elastic", "changeme")) true)
     = [("Content-Type", "application/json")].
Proof.
  apply (X9_client_built_from_the_window Sample.secure_window
           (Client.__init__ "https://es.example.org:9243"
              (Some ("elastic", "changeme")) true));
    reflexivity.
Defined.

(* ================================================================== *)
(** * The handlers of the five buttons *)
(* ================================================================== *)

Section HandlerLemmas.

Import Client Gui Spec GuiSpec.

Variable loads : string -> Json.value + string.

Lemma only_messages_refl (ui : Window) : only_messages ui ui.
Proof. repeat split. Qed.

Lemma only_messages_show (d : Dialog) (before ui : Window) :
  only_messages before ui -> only_messages before (show d ui).
Proof. intros H. exact H. Qed.

Lemma only_messages_showMessage (msg : string) (before ui : Window) :
  only_messages before ui -> only_messages before (showMessage msg ui).
Proof. intros H. exact H. Qed.

(** The window after [_get_client] differs by the warning at most. *)
Lemma get_client_window (ui : Window) : only_messages ui (snd (_get_client ui)).
Proof.
  destruct (get_client_cases ui) as [[_ G] | [_ G]]; rewrite G; repeat split.
Qed.

Lemma get_client_none_blank (ui : Window) :
  fst (_get_client ui) = None <-> blank (host_input ui) || blank (port_input ui) = true.
Proof.
  destruct (get_client_cases ui) as [[Hb G] | [Hb G]]; rewrite G, Hb; cbn [fst];
    split; congruence.
Qed.

(** A press that comes down to no client operation sends nothing and
    changes nothing but the messages. *)
Lemma run_without_call (a : action) (ui : Window) (w : World) :
  call loads a ui = None ->
  completion_after (run loads a ui w) = Finished
  /\ world_after (run loads a ui w) = w
  /\ only_messages ui (window_after (run loads a ui w)).
Proof.
  unfold call, completion_after, window_after, world_after, blank.
  destruct (get_client_cases ui) as [[_ G] | [_ G]].
  - intros _.
    destruct a as [ | | | | answer ]; cbn [run];
      unfold execute_search, execute_get, execute_index, execute_update, execute_delete;
      rewrite G; repeat split.
  - rewrite G. cbn [fst].
    destruct a as [ | | | | [|] ]; cbn [run needs_id andb orb];
      unfold execute_search, execute_get, execute_index, execute_update, execute_delete;
      rewrite G;
      destruct (Py.truthy (Py.strip (index_input ui)));
      cbn [negb orb andb];
      try destruct (Py.truthy (Py.strip (doc_id_input ui)));
      cbn [negb orb andb];
      try destruct (loads (query_input ui));
      try destruct (loads (doc_body_input ui));
      intros H; try discriminate H; repeat split.
Qed.

(** A press that comes down to a client operation performs it, once;
    when the operation raises, a Client Error box shows its message and
    nothing else changes; when it returns, the tree is rebuilt from the
    value, and the settings are saved if the press was a search; when an
    exception passes through the client, nothing but the messages
    changes, and the handler ends with it unless it is a JSON decode
    error and the handler has a clause for those. *)
Lemma run_with_call (a : action) (ui : Window) (w : World)
  (client : SimpleEsClient) (op : operation) :
  call loads a ui = Some (client, op) ->
  world_after (run loads a ui w) = snd (perform client op w)
  /\ match fst (perform client op w) with
     | Raises e =>
         completion_after (run loads a ui w) = Finished
         /\ only_messages ui (window_after (run loads a ui w))
         /\ exists asked,
              dialogs (window_after (run loads a ui w))
              = (dialogs ui ++ asked ++ [critical "Client Error" (message e)])%list
     | Returns v =>
         results_tree (window_after (run loads a ui w)) = Viewer.populate_tree v
         /\ config_writes (window_after (run loads a ui w))
            = (config_writes ui
               ++ match a with PressSearch => [settings ui] | _ => [] end)%list
     | Escapes other =>
         only_messages ui (window_after (run loads a ui w))
         /\ completion_after (run loads a ui w)
            = match json_box a ui with
              | Some _ =>
                  if Py.is_json_decode_error other
                  then Finished else Uncaught (Passed other)
              | None => Uncaught (Passed other)
              end
     end.
Proof.
  unfold call, completion_after, window_after, world_after, blank.
  destruct (get_client_cases ui) as [[_ G] | [_ G]]; rewrite G; cbn [fst];
    [discriminate|].
  destruct a as [ | | | | [|] ]; cbn [run needs_id andb orb json_box];
    unfold execute_search, execute_get, execute_index, execute_update, execute_delete;
    rewrite G;
    destruct (Py.truthy (Py.strip (index_input ui))) eqn:Hindex;
    cbn [negb orb andb]; try (intros H; discriminate H).
  - destruct (loads (query_input ui)) as [query | err]; intros H; [|discriminate H].
    injection H as <- <-. cbn [perform].
    destruct (search _ _ _ w) as [[v | e | other] w']; cbn [fst snd].
    + repeat split.
    + split; [reflexivity|]. repeat split. now exists [].
    + destruct (Py.is_json_decode_error other); repeat split.
  - destruct (Py.truthy (Py.strip (doc_id_input ui))) eqn:Hid;
      cbn [negb]; intros H; [|discriminate H].
    injection H as <- <-. cbn [perform].
    destruct (get_document _ _ _ w) as [[v | e | other] w']; cbn [fst snd].
    + destruct v; repeat split; cbn; now rewrite app_nil_r.
    + split; [reflexivity|]. repeat split. now exists [].
    + repeat split.
  - destruct (loads (doc_body_input ui)) as [body | err]; intros H; [|discriminate H].
    injection H as <- <-. cbn [perform].
    destruct (Py.truthy (Py.strip (doc_id_input ui))) eqn:Hid; cbn [negb];
      destruct (index_document _ _ _ _ w) as [[v | e | other] w']; cbn [fst snd];
      try (split; [reflexivity|]; repeat split; now exists []);
      try (destruct (Py.is_json_decode_error other); repeat split; fail);
      (destruct v as [ | | | | | items | ]; try (repeat split; cbn; now rewrite app_nil_r);
       destruct (Json.truthy (Json.dict_get items "_id" JNull));
       [destruct (Json.dict_get items "_id" JNull)|];
       repeat split; cbn; now rewrite app_nil_r).
  - destruct (Py.truthy (Py.strip (doc_id_input ui))) eqn:Hid;
      cbn [negb]; [|intros H; discriminate H].
    destruct (loads (doc_body_input ui)) as [body | err]; intros H; [|discriminate H].
    injection H as <- <-. cbn [perform].
    destruct (update_document _ _ _ _ w) as [[v | e | other] w']; cbn [fst snd].
    + repeat split; cbn; now rewrite app_nil_r.
    + split; [reflexivity|]. repeat split. now exists [].
    + destruct (Py.is_json_decode_error other); repeat split.
  - destruct (Py.truthy (Py.strip (doc_id_input ui))) eqn:Hid;
      cbn [negb]; intros H; [|discriminate H].
    injection H as <- <-. cbn [perform].
    destruct (delete_document _ _ _ w) as [[v | e | other] w']; cbn [fst snd].
    + repeat split; cbn; now rewrite app_nil_r.
    + split; [reflexivity|]. repeat split.
      eexists [_]. cbn. now rewrite <- app_assoc.
    + repeat split.
  - destruct (Py.truthy (Py.strip (doc_id_input ui))); cbn [negb];
      intros H; discriminate H.
Qed.

End HandlerLemmas.

Lemma perform_network (self : Client.SimpleEsClient) (op : Spec.operation)
  (w : Client.World) :
  Client.network (snd (Spec.perform self op w)) = Client.network w.
Proof. now rewrite perform_make_request. Qed.

Section CallLemmas.

Import Client Gui Spec GuiSpec.

Variable loads : string -> Json.value + string.

Lemma call_blank (a : action) (ui : Window) :
  blank (host_input ui) || blank (port_input ui) || blank (index_input ui)
  || (needs_id a && blank (doc_id_input ui)) = true ->
  call loads a ui = None.
Proof.
  intros H. unfold call.
  destruct (get_client_cases ui) as [[Hb G] | [Hb G]]; rewrite G; cbn [fst];
    [reflexivity|].
  rewrite Hb in H. cbn [orb] in H. now rewrite H.
Qed.

Lemma call_undecodable (a : action) (ui : Window) (text err : string) :
  json_box a ui = Some text -> loads text = inr err -> call loads a ui = None.
Proof.
  intros Hbox Herr. unfold call.
  destruct (fst (_get_client ui)); [|reflexivity].
  destruct (blank (index_input ui) || (needs_id a && blank (doc_id_input ui)));
    [reflexivity|].
  destruct a as [ | | | | answer ]; cbn [json_box] in Hbox; try discriminate Hbox;
    injection Hbox as <-; now rewrite Herr.
Qed.

Lemma call_declined (ui : Window) : call loads (PressDelete No) ui = None.
Proof.
  unfold call.
  destruct (fst (_get_client ui)); [|reflexivity].
  now destruct (blank (index_input ui)
                || (needs_id (PressDelete No) && blank (doc_id_input ui))).
Qed.

End CallLemmas.

(** X10: a press of any button sends at most one request, and leaves the
    network as it is. *)
Theorem X10_a_press_sends_at_most_one_request :
  forall (loads : string -> Json.value + string) (a : GuiSpec.action)
         (ui : Gui.Window) (w : Client.World),
    (Client.sent (GuiSpec.world_after (GuiSpec.run loads a ui w)) = Client.sent w
     \/ exists req,
          Client.sent (GuiSpec.world_after (GuiSpec.run loads a ui w))
          = (Client.sent w ++ [req])%list)
    /\ Client.network (GuiSpec.world_after (GuiSpec.run loads a ui w))
       = Client.network w.
Proof.
  intros loads a ui w.
  destruct (GuiSpec.call loads a ui) as [[client op]|] eqn:Hcall.
  - destruct (run_with_call loads a ui w client op Hcall) as [-> _].
    split; [right; exists (Spec.request_of client op); apply perform_sent
           | apply perform_network].
  - destruct (run_without_call loads a ui w Hcall) as (_ & -> & _).
    split; [now left | reflexivity].
Qed.

(** X11: when the host, the port or the index box is blank, or the id box
    is blank and the button is Get, Update or Delete, the press sends no
    request, shows an Input Error warning last, and changes nothing in
    the window but the messages. *)
Theorem X11_blank_boxes_send_nothing :
  forall (loads : string -> Json.value + string) (a : GuiSpec.action)
         (ui : Gui.Window) (w : Client.World),
    GuiSpec.blank (Gui.host_input ui) || GuiSpec.blank (Gui.port_input ui)
    || GuiSpec.blank (Gui.index_input ui)
    || (GuiSpec.needs_id a && GuiSpec.blank (Gui.doc_id_input ui)) = true ->
    GuiSpec.completion_after (GuiSpec.run loads a ui w) = Gui.Finished
    /\ GuiSpec.world_after (GuiSpec.run loads a ui w) = w
    /\ GuiSpec.only_messages ui (GuiSpec.window_after (GuiSpec.run loads a ui w))
    /\ exists earlier text,
         Gui.dialogs (GuiSpec.window_after (GuiSpec.run loads a ui w))
         = (earlier ++ [Gui.warning "Input Error" text])%list.
Proof.
  intros loads a ui w Hblank.
  destruct (run_without_call loads a ui w (call_blank loads a ui Hblank))
    as (Hdone & Hworld & Hsame).
  repeat split; try assumption; try apply Hsame.
  unfold GuiSpec.window_after, GuiSpec.blank in *.
  destruct (get_client_cases ui) as [[Hb G] | [Hb G]].
  - destruct a as [ | | | | answer ]; cbn [GuiSpec.run];
      unfold Gui.execute_search, Gui.execute_get, Gui.execute_index,
        Gui.execute_update, Gui.execute_delete;
      rewrite G; cbn [fst snd]; eexists; eexists; reflexivity.
  - unfold GuiSpec.blank in Hb. rewrite Hb in Hblank. cbn [orb] in Hblank.
    destruct a as [ | | | | answer ]; cbn [GuiSpec.run GuiSpec.needs_id andb orb] in *;
      unfold Gui.execute_search, Gui.execute_get, Gui.execute_index,
        Gui.execute_update, Gui.execute_delete;
      rewrite G;
      destruct (Py.truthy (Py.strip (Gui.index_input ui)));
      cbn [negb orb andb] in *; try discriminate Hblank;
      try (apply negb_true_iff in Hblank; rewrite Hblank);
      cbn [fst snd]; eexists; eexists; reflexivity.
Qed.

Lemma X11_witness :
  GuiSpec.completion_after
    (GuiSpec.run Sample.loads (GuiSpec.PressDelete Gui.Yes) Sample.window_without_id
       (Sample.always (Client.Done Sample.no_content))) = Gui.Finished
  /\ GuiSpec.world_after
       (GuiSpec.run Sample.loads (GuiSpec.PressDelete Gui.Yes) Sample.window_without_id
          (Sample.always (Client.Done Sample.no_content)))
     = Sample.always (Client.Done Sample.no_content)
  /\ GuiSpec.only_messages Sample.window_without_id
       (GuiSpec.window_after
          (GuiSpec.run Sample.loads (GuiSpec.PressDelete Gui.Yes) Sample.window_without_id
             (Sample.always (Client.Done Sample.no_content))))
  /\ exists earlier text,
       Gui.dialogs
         (GuiSpec.window_after
            (GuiSpec.run Sample.loads (GuiSpec.PressDelete Gui.Yes)
               Sample.window_without_id
               (Sample.always (Client.Done Sample.no_content))))
       = (earlier ++ [Gui.warning "Input Error" text])%list.
Proof.
  apply (X11_blank_boxes_send_nothing Sample.loads (GuiSpec.PressDelete Gui.Yes)
           Sample.window_without_id (Sample.always (Client.Done Sample.no_content))).
  reflexivity.
Defined.

(** X12: when the text of the box a button decodes (the query box for
    Search, the body box for Index and Update) is not JSON, the press
    sends no request and changes nothing in the window but the messages. *)
Theorem X12_undecodable_text_sends_nothing :
  forall (loads : string -> Json.value + string) (a : GuiSpec.action)
         (ui : Gui.Window) (w : Client.World) (text err : string),
    GuiSpec.json_box a ui = Some text ->
    loads text = inr err ->
    GuiSpec.completion_after (GuiSpec.run loads a ui w) = Gui.Finished
    /\ GuiSpec.world_after (GuiSpec.run loads a ui w) = w
    /\ GuiSpec.only_messages ui (GuiSpec.window_after (GuiSpec.run loads a ui w)).
Proof.
  intros loads a ui w text err Hbox Herr.
  exact (run_without_call loads a ui w (call_undecodable loads a ui text err Hbox Herr)).
Qed.

Lemma X12_witness :
  GuiSpec.completion_after
    (GuiSpec.run Sample.loads GuiSpec.PressUpdate Sample.window_with_bad_body
       (Sample.always (Client.Done Sample.created))) = Gui.Finished
  /\ GuiSpec.world_after
       (GuiSpec.run Sample.loads GuiSpec.PressUpdate Sample.window_with_bad_body
          (Sample.always (Client.Done Sample.created)))
     = Sample.always (Client.Done Sample.created)
  /\ GuiSpec.only_messages Sample.window_with_bad_body
       (GuiSpec.window_after
          (GuiSpec.run Sample.loads GuiSpec.PressUpdate Sample.window_with_bad_body
             (Sample.always (Client.Done Sample.created)))).
Proof.
  apply (X12_undecodable_text_sends_nothing Sample.loads GuiSpec.PressUpdate
           Sample.window_with_bad_body (Sample.always (Client.Done Sample.created))
           "{"
           "Expecting property name enclosed in double quotes: line 1 column 2 (char 1)");
    reflexivity.
Defined.

Example undecodable_body_shows_json_error :
  Gui.dialogs
    (GuiSpec.window_after
       (GuiSpec.run Sample.loads GuiSpec.PressIndex Sample.window_with_bad_body
          (Sample.always (Client.Done Sample.created))))
  = [Gui.critical "JSON Error"
       ("Invalid JSON in document body:" ++ Py.nl
        ++ "Expecting property name enclosed in double quotes: line 1 column 2 (char 1)")].
Proof. reflexivity. Qed.

(** X13: a Delete answered with No sends no request and changes nothing
    in the window but the messages, whatever the boxes hold. *)
Theorem X13_declined_delete_sends_nothing :
  forall (ui : Gui.Window) (w : Client.World),
    GuiSpec.completion_after (Gui.execute_delete Gui.No ui w) = Gui.Finished
    /\ GuiSpec.world_after (Gui.execute_delete Gui.No ui w) = w
    /\ GuiSpec.only_messages ui (GuiSpec.window_after (Gui.execute_delete Gui.No ui w)).
Proof.
  intros ui w.
  exact (run_without_call (fun _ => inr "") (GuiSpec.PressDelete Gui.No) ui w
           (call_declined (fun _ => inr "") ui)).
Qed.

(** X14: a press that comes down to a client operation sends exactly the
    request of that operation, built from the stripped texts of the index
    and id boxes, after the requests sent before. *)
Theorem X14_the_request_of_a_press :
  forall (loads : string -> Json.value + string) (a : GuiSpec.action)
         (ui : Gui.Window) (w : Client.World)
         (client : Client.SimpleEsClient) (op : Spec.operation),
    GuiSpec.call loads a ui = Some (client, op) ->
    Client.sent (GuiSpec.world_after (GuiSpec.run loads a ui w))
    = (Client.sent w ++ [Spec.request_of client op])%list.
Proof.
  intros loads a ui w client op Hcall.
  destruct (run_with_call loads a ui w client op Hcall) as [-> _].
  apply perform_sent.
Qed.

Lemma X14_witness :
  Client.sent
    (GuiSpec.world_after
       (GuiSpec.run Sample.loads (GuiSpec.PressDelete Gui.Yes) Sample.window
          (Sample.always (Client.Done Sample.no_content))))
  = [Client.mkRequest "DELETE" "http://localhost:9200/my-index/_doc/42" None
       [("Content-Type", "application/json")] 10 true None].
Proof.
  apply (X14_the_request_of_a_press Sample.loads (GuiSpec.PressDelete Gui.Yes)
           Sample.window (Sample.always (Client.Done Sample.no_content))
           Sample.client (Spec.DeleteDocument "my-index" "42")).
  reflexivity.
Defined.

(** X15: with a client, an index and a body that decodes, Index/Create
    sends one request: a POST to [{base}/{index}/_doc] when the id box is
    blank, and a PUT to [{base}/{index}/_doc/{id}] with the stripped id
    otherwise; an id of white space only never reaches the URL. *)
Theorem X15_index_button_posts_without_id_and_puts_with_id :
  forall (loads : string -> Json.value + string) (ui : Gui.Window) (w : Client.World)
         (client : Client.SimpleEsClient) (document : Json.value),
    fst (Gui._get_client ui) = Some client ->
    GuiSpec.blank (Gui.index_input ui) = false ->
    loads (Gui.doc_body_input ui) = inl document ->
    Client.sent (GuiSpec.world_after (Gui.execute_index loads ui w))
    = (Client.sent w
       ++ [if GuiSpec.blank (Gui.doc_id_input ui)
           then Spec.request client "POST"
                  (Py.strip (Gui.index_input ui) ++ "/_doc") (Some document)
           else Spec.request client "PUT"
                  (Py.strip (Gui.index_input ui) ++ "/_doc/"
                   ++ Py.strip (Gui.doc_id_input ui))
                  (Some document)])%list.
Proof.
  intros loads ui w client document Hclient Hindex Hbody.
  assert (Hcall :
    GuiSpec.call loads GuiSpec.PressIndex ui
    = Some (client,
            Spec.IndexDocument (Py.strip (Gui.index_input ui)) document
              (if GuiSpec.blank (Gui.doc_id_input ui)
               then None else Some (Py.strip (Gui.doc_id_input ui))))).
  { unfold GuiSpec.call. rewrite Hclient, Hindex, Hbody. reflexivity. }
  destruct (run_with_call loads GuiSpec.PressIndex ui w client _ Hcall) as [Hworld _].
  cbn [GuiSpec.run] in Hworld. rewrite Hworld, perform_sent. do 2 f_equal.
  unfold GuiSpec.blank.
  destruct (Py.strip (Gui.doc_id_input ui)) as [|c id]; reflexivity.
Qed.

Lemma X15_witness :
  Client.sent
    (GuiSpec.world_after
       (Gui.execute_index Sample.loads Sample.window_without_id
          (Sample.always (Client.Done Sample.created))))
  = [Client.mkRequest "POST" "http://localhost:9200/my-index/_doc" None
       [("Content-Type", "application/json")] 10 true (Some (JObject []))].
Proof.
  apply (X15_index_button_posts_without_id_and_puts_with_id Sample.loads
           Sample.window_without_id (Sample.always (Client.Done Sample.created))
           Sample.client (JObject []));
    reflexivity.
Defined.

Example index_button_puts_with_stripped_id :
  Client.sent
    (GuiSpec.world_after
       (Gui.execute_index Sample.loads Sample.window
          (Sample.always (Client.Done Sample.created))))
  = [Client.mkRequest "PUT" "http://localhost:9200/my-index/_doc/42" None
       [("Content-Type", "application/json")] 10 true (Some (JObject []))].
Proof. reflexivity. Qed.

(** X16: when the client operation of a press raises, the handler ends
    normally, the last message box is a Client Error with the message of
    the error, and the tree, the boxes, the clipboard and the saved
    settings stay as they were. *)
Theorem X16_a_client_error_changes_only_the_messages :
  forall (loads : string -> Json.value + string) (a : GuiSpec.action)
         (ui : Gui.Window) (w : Client.World)
         (client : Client.SimpleEsClient) (op : Spec.operation) (e : Client.client_exc),
    GuiSpec.call loads a ui = Some (client, op) ->
    fst (Spec.perform client op w) = Client.Raises e ->
    GuiSpec.completion_after (GuiSpec.run loads a ui w) = Gui.Finished
    /\ GuiSpec.only_messages ui (GuiSpec.window_after (GuiSpec.run loads a ui w))
    /\ exists asked,
         Gui.dialogs (GuiSpec.window_after (GuiSpec.run loads a ui w))
         = (Gui.dialogs ui ++ asked
            ++ [Gui.critical "Client Error" (Client.message e)])%list.
Proof.
  intros loads a ui w client op e Hcall Hraise.
  destruct (run_with_call loads a ui w client op Hcall) as [_ H].
  now rewrite Hraise in H.
Qed.

Lemma X16_witness :
  GuiSpec.completion_after
    (GuiSpec.run Sample.loads GuiSpec.PressGet Sample.window
       (Sample.always Sample.refused)) = Gui.Finished
  /\ GuiSpec.only_messages Sample.window
       (GuiSpec.window_after
          (GuiSpec.run Sample.loads GuiSpec.PressGet Sample.window
             (Sample.always Sample.refused)))
  /\ exists asked,
       Gui.dialogs
         (GuiSpec.window_after
            (GuiSpec.run Sample.loads GuiSpec.PressGet Sample.window
               (Sample.always Sample.refused)))
       = (Gui.dialogs Sample.window ++ asked
          ++ [Gui.critical "Client Error"
                (Client.message
                   (Client.mkExc Client.SimpleEsClientError
                      "Connection failed: Connection refused"
                      (Client.RequestsError Client.ConnectionError
                         "Connection refused")))])%list.
Proof.
  apply (X16_a_client_error_changes_only_the_messages Sample.loads GuiSpec.PressGet
           Sample.window (Sample.always Sample.refused)
           Sample.client (Spec.GetDocument "my-index" "42")
           (Client.mkExc Client.SimpleEsClientError
              "Connection failed: Connection refused"
              (Client.RequestsError Client.ConnectionError "Connection refused")));
    reflexivity.
Defined.

(** X17: when the client operation of a press returns a value, the tree
    shown afterwards is the tree of that value alone: the rows shown
    before are gone. *)
Theorem X17_a_result_replaces_the_tree :
  forall (loads : string -> Json.value + string) (a : GuiSpec.action)
         (ui : Gui.Window) (w : Client.World)
         (client : Client.SimpleEsClient) (op : Spec.operation) (v : Json.value),
    GuiSpec.call loads a ui = Some (client, op) ->
    fst (Spec.perform client op w) = Client.Returns v ->
    Gui.results_tree (GuiSpec.window_after (GuiSpec.run loads a ui w))
    = Viewer.populate_tree v.
Proof.
  intros loads a ui w client op v Hcall Hreturn.
  destruct (run_with_call loads a ui w client op Hcall) as [_ H].
  rewrite Hreturn in H. apply H.
Qed.

Lemma X17_witness :
  Gui.results_tree
    (GuiSpec.window_after
       (GuiSpec.run Sample.loads GuiSpec.PressSearch Sample.window
          (Sample.always (Client.Done Sample.listing))))
  = Viewer.populate_tree (JArray [JString "a"]).
Proof.
  apply (X17_a_result_replaces_the_tree Sample.loads GuiSpec.PressSearch
           Sample.window (Sample.always (Client.Done Sample.listing))
           Sample.client (Spec.Search "my-index" (JObject [])) (JArray [JString "a"]));
    reflexivity.
Defined.

(** X18: the settings are handed to the configuration file by a search
    that returned a value and by nothing else: exactly once then, with
    the texts of the boxes as typed (host, port, index, user name,
    password, query) and the three ticks; no other button, no search that
    failed and no press that was refused writes them. *)
Theorem X18_settings_saved_by_a_successful_search_only :
  forall (loads : string -> Json.value + string) (a : GuiSpec.action)
         (ui : Gui.Window) (w : Client.World),
    Gui.config_writes (GuiSpec.window_after (GuiSpec.run loads a ui w))
    = (Gui.config_writes ui
       ++ match a, GuiSpec.call loads a ui with
          | GuiSpec.PressSearch, Some (client, op) =>
              match fst (Spec.perform client op w) with
              | Client.Returns _ =>
                  [JObject [("host", JString (Gui.host_input ui));
                            ("port", JString (Gui.port_input ui));
                            ("index", JString (Gui.index_input ui));
                            ("https_enabled", JBool (Gui.https_checkbox ui));
                            ("verify_ssl", JBool (Gui.verify_ssl_checkbox ui));
                            ("auth_enabled", JBool (Gui.auth_checkbox ui));
                            ("username", JString (Gui.user_input ui));
                            ("password", JString (Gui.pass_input ui));
                            ("query", JString (Gui.query_input ui))]]
              | Client.Raises _ => []
              | Client.Escapes _ => []
              end
          | _, _ => []
          end)%list.
Proof.
  intros loads a ui w.
  destruct (GuiSpec.call loads a ui) as [[client op]|] eqn:Hcall.
  - destruct (run_with_call loads a ui w client op Hcall) as [_ H].
    destruct a; try rewrite Hcall;
      (destruct (fst (Spec.perform client op w)) as [v | e | other];
       [ destruct H as [_ ->]; reflexivity
       | destruct H as (_ & (_ & _ & _ & ->) & _); now rewrite app_nil_r
       | destruct H as ((_ & _ & _ & ->) & _); now rewrite app_nil_r ]).
  - destruct (run_without_call loads a ui w Hcall) as (_ & _ & (_ & _ & _ & ->)).
    destruct a; try rewrite Hcall; now rewrite app_nil_r.
Qed.

Lemma get_client_some (ui : Gui.Window) (client : Client.SimpleEsClient) :
  fst (Gui._get_client ui) = Some client -> Gui._get_client ui = (Some client, ui).
Proof.
  intros H.
  destruct (get_client_cases ui) as [[_ G] | [_ G]]; rewrite G in H |- *;
    cbn [fst] in H; congruence.
Qed.




Example get_pretty_prints_the_source :
  Gui.doc_body_input
    (GuiSpec.window_after
       (Gui.execute_get Sample.window (Sample.always (Client.Done Sample.found))))
  = "{" ++ Py.nl ++ "  " ++ Json.dquote ++ "name" ++ Json.dquote ++ ": "
    ++ Json.dquote ++ "disk-7" ++ Json.dquote ++ Py.nl ++ "}".
Proof. reflexivity. Qed.

Example get_of_an_acknowledgement_gives_empty_braces :
  Gui.doc_body_input
    (GuiSpec.window_after
       (Gui.execute_get Sample.window (Sample.always (Client.Done Sample.no_content))))
  = "{}".
Proof. reflexivity. Qed.

Example get_of_a_list_dies_of_an_attribute_error :
  GuiSpec.completion_after
    (Gui.execute_get Sample.window (Sample.always (Client.Done Sample.listing)))
  = Gui.Uncaught Gui.AttributeError
  /\ Gui.doc_body_input
       (GuiSpec.window_after
          (Gui.execute_get Sample.window (Sample.always (Client.Done Sample.listing))))
     = Gui.doc_body_input Sample.window.
Proof. split; reflexivity. Qed.

Example get_of_a_source_with_markup_shows_its_rendering :
  Gui.doc_body_input
    (GuiSpec.window_after
       (Gui.execute_get Sample.rendering_window
          (Sample.always (Client.Done Sample.found_markup))))
  = Json.dquote ++ "bold text" ++ Json.dquote
  /\ Json.dumps_indent 2 0 (JString "<b>bold</b> text")
     = Json.dquote ++ "<b>bold</b> text" ++ Json.dquote
  /\ GuiSpec.plain_at_first_sight (Json.dumps_indent 2 0 (JString "<b>bold</b> text"))
     = false.
Proof. repeat split. Qed.

(** X20: after an Index/Create whose operation returned an object, the
    id box holds the [_id] of the object when that is a non-empty string
    (the id the server assigned), and what it held before when the object
    has no [_id] or a falsy one; an [_id] that is truthy and not a string
    makes the handler die of an uncaught [TypeError]. *)
Theorem X20_index_puts_the_assigned_id_in_the_id_box :
  forall (loads : string -> Json.value + string) (ui : Gui.Window) (w : Client.World)
         (client : Client.SimpleEsClient) (document : Json.value)
         (items : list (string * Json.value)),
    fst (Gui._get_client ui) = Some client ->
    GuiSpec.blank (Gui.index_input ui) = false ->
    loads (Gui.doc_body_input ui) = inl document ->
    fst (Client.index_document client (Py.strip (Gui.index_input ui)) document
           (if GuiSpec.blank (Gui.doc_id_input ui)
            then None else Some (Py.strip (Gui.doc_id_input ui))) w)
    = Client.Returns (JObject items) ->
    match Json.dict_get items "_id" JNull with
    | JString id =>
        GuiSpec.completion_after (Gui.execute_index loads ui w) = Gui.Finished
        /\ Gui.doc_id_input (GuiSpec.window_after (Gui.execute_index loads ui w))
           = (if Py.truthy id then id else Gui.doc_id_input ui)
    | other =>
        GuiSpec.completion_after (Gui.execute_index loads ui w)
        = (if Json.truthy other then Gui.Uncaught Gui.TypeError else Gui.Finished)
        /\ Gui.doc_id_input (GuiSpec.window_after (Gui.execute_index loads ui w))
           = Gui.doc_id_input ui
    end.
Proof.
  intros loads ui w client document items Hclient Hindex Hbody Hput.
  unfold GuiSpec.blank in Hindex, Hput. apply negb_false_iff in Hindex.
  unfold GuiSpec.window_after, GuiSpec.completion_after, Gui.execute_index.
  rewrite (get_client_some ui client Hclient), Hindex, Hbody.
  assert (Hid : (if Py.truthy (Py.strip (Gui.doc_id_input ui))
                 then Some (Py.strip (Gui.doc_id_input ui)) else None)
                = (if negb (Py.truthy (Py.strip (Gui.doc_id_input ui)))
                   then None else Some (Py.strip (Gui.doc_id_input ui))))
    by now destruct (Py.truthy (Py.strip (Gui.doc_id_input ui))).
  rewrite Hid.
  destruct (Client.index_document client _ _ _ w) as [out w'].
  cbn [fst] in Hput. rewrite Hput.
  destruct (Json.dict_get items "_id" JNull) as [ | b | n | repr | id | kvs | xs ];
    cbn [Json.truthy];
    try (split; reflexivity);
    try (destruct b; split; reflexivity);
    try (destruct (negb (n =? 0)%Z); split; reflexivity);
    try (destruct (negb (String.eqb repr "0.0" || String.eqb repr "-0.0")); split; reflexivity);
    try (destruct (Py.truthy id); split; reflexivity);
    try (destruct kvs; split; reflexivity);
    try (destruct xs; split; reflexivity).
Qed.

Lemma X20_witness :
  GuiSpec.completion_after
    (Gui.execute_index Sample.loads Sample.window_without_id
       (Sample.always (Client.Done Sample.created))) = Gui.Finished
  /\ Gui.doc_id_input
       (GuiSpec.window_after
          (Gui.execute_index Sample.loads Sample.window_without_id
             (Sample.always (Client.Done Sample.created))))
     = "42".
Proof.
  apply (X20_index_puts_the_assigned_id_in_the_id_box Sample.loads
           Sample.window_without_id (Sample.always (Client.Done Sample.created))
           Sample.client (JObject [])
           [("_id", JString "42"); ("result", JString "created")]);
    reflexivity.
Defined.
